(** * vscode-azurefunctions: the command layer and the deployment check

    A shallow embedding of [src/commands.ts] (the editor commands
    [createFunctionApp], [startFunctionApp], [stopFunctionApp],
    [restartFunctionApp]) and of the nightly test helpers
    [copyFunctionUrl] and [validateFunctionUrl] that follow it in the
    source, with the properties the specification states about them.

    Asynchronous code is modelled in a state-and-exception monad: an
    [async] function is a function from the state of the editor to a
    completion (fulfilled or rejected) and a new state; [await] is the
    monad's bind and [try]/[catch] its handler. *)

From Stdlib Require Import String Ascii ZArith Lia DecimalString.
From stdpp Require Import base list gmap strings.

Local Open Scope string_scope.
#[local] Arguments String.append : simpl nomatch.

(** ** Strings *)

(** The double quote character, as a one-character string. *)
Definition dquote : string := String (ascii_of_nat 34) EmptyString.

(** [String.prototype.includes]: [includes s search] holds when [search]
    occurs somewhere in [s]. *)
Fixpoint includes (s search : string) : bool :=
  if String.prefix search s then true
  else match s with
       | EmptyString => false
       | String _ s' => includes s' search
       end.

(** Template literals print numbers in decimal. *)
Definition string_of_nat (n : nat) : string :=
  NilEmpty.string_of_uint (Nat.to_uint n).

Definition string_of_Z (z : Z) : string :=
  NilZero.string_of_int (Z.to_int z).

(** [Array.prototype.join]. *)
Fixpoint join (sep : string) (l : list string) : string :=
  match l with
  | [] => EmptyString
  | [x] => x
  | x :: rest => x ++ sep ++ join sep rest
  end.

(** [path.join] for a base path and segments that need no normalisation
    (the segments of the source are the literals [.vscode], [tasks.json]
    and [launch.json]); a base with a trailing separator, or a segment
    such as [.] or [..], is outside it. *)
Definition path_join (base : string) (segments : list string) : string :=
  fold_left (fun p seg => p ++ "/" ++ seg) segments base.

(** ** Asynchronous computations *)

Inductive Completion (E A : Type) : Type :=
| Fulfilled (a : A)
| Rejected (e : E).
Arguments Fulfilled {E A} a.
Arguments Rejected {E A} e.

Definition Async (S E A : Type) : Type := S -> Completion E A * S.

Definition resolve {S E A} (a : A) : Async S E A :=
  fun s => (Fulfilled a, s).

Definition throw {S E A} (e : E) : Async S E A :=
  fun s => (Rejected e, s).

Definition await {S E A B} (m : Async S E A) (k : A -> Async S E B) : Async S E B :=
  fun s =>
    match m s with
    | (Fulfilled a, s') => k a s'
    | (Rejected e, s') => (Rejected e, s')
    end.

(** [try { m } catch (error) { handler error }]; the handler may throw a
    value of another type. *)
Definition try_catch {S E E' A} (m : Async S E A) (handler : E -> Async S E' A)
  : Async S E' A :=
  fun s =>
    match m s with
    | (Fulfilled a, s') => (Fulfilled a, s')
    | (Rejected e, s') => handler e s'
    end.

(** A synchronous effect on the state. *)
Definition effect {S E} (f : S -> S) : Async S E unit :=
  fun s => (Fulfilled tt, f s).

(** The outcome of a collaborator, decided outside the program. *)
Definition settle {S E A} (c : Completion E A) : Async S E A :=
  fun s => (c, s).

Declare Scope async_scope.
Delimit Scope async_scope with async.
Notation "x <- m ;; k" := (await m (fun x => k))
  (at level 100, m at next level, right associativity) : async_scope.
Notation "m ;;; k" := (await m (fun _ => k))
  (at level 100, right associativity) : async_scope.

(** ** JSON values and [JSON.stringify] *)

#[local] Set Warnings "-register-all".

Inductive Json : Type :=
| JNull
| JBool (b : bool)
| JNumber (z : Z)
| JString (s : string)
| JArray (items : list Json)
| JObject (members : list (string * Json)).

(** Property lookup on an object literal (the first member of that name;
    the literals of the source have no repeated key). *)
Fixpoint assoc (key : string) (members : list (string * Json)) : option Json :=
  match members with
  | [] => None
  | (k, v) :: rest => if String.eqb k key then Some v else assoc key rest
  end.

Definition member (key : string) (j : Json) : option Json :=
  match j with
  | JObject members => assoc key members
  | _ => None
  end.

Definition hex_digit (n : nat) : ascii :=
  if Nat.ltb n 10 then ascii_of_nat (48 + n) else ascii_of_nat (87 + n).

(** One character of a JSON string (QuoteJSONString): the quote and the
    backslash are escaped, control characters are written in their short
    form or as [\u00XX], everything else stands for itself. *)
Definition quote_char (c : ascii) : string :=
  let n := nat_of_ascii c in
  let bs := String (ascii_of_nat 92) EmptyString in
  if Nat.eqb n 34 then bs ++ dquote
  else if Nat.eqb n 92 then bs ++ bs
  else if Nat.eqb n 8 then bs ++ "b"
  else if Nat.eqb n 12 then bs ++ "f"
  else if Nat.eqb n 10 then bs ++ "n"
  else if Nat.eqb n 13 then bs ++ "r"
  else if Nat.eqb n 9 then bs ++ "t"
  else if Nat.ltb n 32 then
    bs ++ "u00" ++ String (hex_digit (n / 16)) (String (hex_digit (n mod 16)) EmptyString)
  else String c EmptyString.

Fixpoint quote_chars (s : string) : string :=
  match s with
  | EmptyString => EmptyString
  | String c s' => quote_char c ++ quote_chars s'
  end.

Definition quote (s : string) : string := dquote ++ quote_chars s ++ dquote.

Definition newline : string := String (ascii_of_nat 10) EmptyString.

(** [JSON.stringify(value, null, gap)] for a non-empty [gap]; [indent] is
    the indentation of the enclosing line. *)
Fixpoint stringify_at (gap indent : string) (j : Json) : string :=
  let stepback := indent in
  let indent' := indent ++ gap in
  match j with
  | JNull => "null"
  | JBool true => "true"
  | JBool false => "false"
  | JNumber z => string_of_Z z
  | JString s => quote s
  | JArray [] => "[]"
  | JArray items =>
      "[" ++ newline ++ indent'
      ++ join ("," ++ newline ++ indent') (List.map (stringify_at gap indent') items)
      ++ newline ++ stepback ++ "]"
  | JObject [] => "{}"
  | JObject members =>
      "{" ++ newline ++ indent'
      ++ join ("," ++ newline ++ indent')
           (List.map (fun kv => quote (fst kv) ++ ": " ++ stringify_at gap indent' (snd kv))
              members)
      ++ newline ++ stepback ++ "}"
  end.

Definition JSON_stringify (value : Json) (gap : string) : string :=
  stringify_at gap EmptyString value.

(** ** The command layer ([commands.ts]) *)

(** [QuickPickItemWithData] of [util]: a label, an optional description
    and optional data. *)
Record QuickPickItemWithData : Type := {
  qp_label : string;
  qp_description : option string;
  qp_data : option string
}.

(** A [FunctionAppNode] of the tree; only its label is read here. *)
Record FunctionAppNode : Type := { node_label : string }.

Inductive NodeMethod : Type := start | stop | restart.

(** Calls that leave the command layer, in the order they are made. *)
Inductive Call : Type :=
| CliCreateFunctionApp (functionAppPath : string)
| WriteToFile (path data : string)
| ExecuteCommand (command arg : string)
| NodeCall (node : FunctionAppNode) (method : NodeMethod).

(** What the editor commands act on: the file system (path to content),
    the lines of the output channel, and the calls made so far. *)
Record Editor : Type := {
  files : gmap string string;
  channel : list string;
  calls : list Call
}.

(** [fs.existsSync] for a path that names a file: the file system of the
    model holds files only, so a folder is not represented. *)
Definition fs_existsSync (path : string) (ed : Editor) : bool :=
  match files ed !! path with
  | Some _ => true
  | None => false
  end.

Definition appendLine (line : string) (ed : Editor) : Editor :=
  {| files := files ed; channel := channel ed ++ [line]; calls := calls ed |}.

Definition record_call (c : Call) (ed : Editor) : Editor :=
  {| files := files ed; channel := channel ed; calls := calls ed ++ [c] |}.

(** The scaffold written by [createFunctionApp] (lines 91 to 123). *)
Definition taskId : string := "launchFunctionApp".

Definition tasksJson : Json :=
  JObject [
    ("version", JString "2.0.0");
    ("tasks", JArray [
      JObject [
        ("taskName", JString "Launch Function App");
        ("identifier", JString taskId);
        ("type", JString "shell");
        ("command", JString "func host start");
        ("group", JString "none");
        ("presentation", JObject [
          ("reveal", JString "always");
          ("panel", JString "dedicated")
        ]);
        ("isBackground", JBool true)
      ]
    ])
  ].

Definition launchJson : Json :=
  JObject [
    ("version", JString "0.2.0");
    ("configurations", JArray [
      JObject [
        ("name", JString "Attach to Azure Functions");
        ("type", JString "node");
        ("request", JString "attach");
        ("port", JNumber 5858);
        ("preLaunchTask", JString taskId)
      ]
    ])
  ].

Definition four_spaces : string := "    ".

Section Commands.

(** Values thrown by the collaborators of the command layer. *)
Variable Err : Type.

(** [vscode.workspace.workspaceFolders], each folder by its
    [uri.fsPath]. *)
Variable workspaceFolders : option (list string).

(** The answer of the user to a quick pick ([util.showQuickPick]) and to
    the folder dialog ([util.showFolderDialog]); either may reject. *)
Variable showQuickPick :
  list QuickPickItemWithData -> string -> Completion Err QuickPickItemWithData.
Variable showFolderDialog : Completion Err string.

(** [functionsCli.createFunctionApp]: what the command-line tool does
    to the files under the path, the lines it logs, and whether it
    fails. *)
Variable func_init :
  string -> gmap string string -> Completion Err unit * gmap string string * list string.

(** The outcome of [vscode.commands.executeCommand] and of the methods
    of a node. *)
Variable executeCommand : string -> string -> Completion Err unit.
Variable node_method : FunctionAppNode -> NodeMethod -> Completion Err unit.

Local Open Scope async_scope.

Definition functionsCli_createFunctionApp (functionAppPath : string)
  : Async Editor Err unit :=
  fun ed =>
    let '(c, files', lines) := func_init functionAppPath (files ed) in
    (c, {| files := files';
           channel := channel ed ++ lines;
           calls := calls ed ++ [CliCreateFunctionApp functionAppPath] |}).

(** Modelled from the spec: [util.writeToFile], which is not part of the
    source; it writes the data to the path. *)
Definition writeToFile (path data : string) : Async Editor Err unit :=
  effect (fun ed =>
    {| files := <[path := data]> (files ed);
       channel := channel ed;
       calls := calls ed ++ [WriteToFile path data] |}).

Definition vscode_executeCommand (command arg : string) : Async Editor Err unit :=
  effect (record_call (ExecuteCommand command arg)) ;;;
  settle (executeCommand command arg).

Definition call_node (node : FunctionAppNode) (m : NodeMethod) : Async Editor Err unit :=
  effect (record_call (NodeCall node m)) ;;;
  settle (node_method node m).

(** The picks offered by [createFunctionApp] (lines 71 to 76). *)
Definition newFolderId : string := "newFolder".

Definition folderPicks : list QuickPickItemWithData :=
  let folderPicks :=
    [ {| qp_label := "$(plus) New Folder";
         qp_description := None;
         qp_data := Some newFolderId |} ] in
  let folders := workspaceFolders in
  match folders with
  | Some fs =>
      (folderPicks ++
       List.map (fun f => {| qp_label := f; qp_description := None; qp_data := None |}) fs)%list
  | None => folderPicks
  end.

Definition createFunctionApp : Async Editor Err unit :=
  folder <- settle (showQuickPick folderPicks
                      "Select a workspace folder for your new function app") ;;
  let createNewFolder := bool_decide (qp_data folder = Some newFolderId) in
  functionAppPath <-
    (if createNewFolder then settle showFolderDialog else resolve (qp_label folder)) ;;
  let tasksJsonPath := path_join functionAppPath [".vscode"; "tasks.json"] in
  tasksJsonExists <- (fun ed => (Fulfilled (fs_existsSync tasksJsonPath ed), ed)) ;;
  let launchJsonPath := path_join functionAppPath [".vscode"; "launch.json"] in
  launchJsonExists <- (fun ed => (Fulfilled (fs_existsSync launchJsonPath ed), ed)) ;;
  functionsCli_createFunctionApp functionAppPath ;;;
  (if negb tasksJsonExists && negb launchJsonExists then
     writeToFile tasksJsonPath (JSON_stringify tasksJson four_spaces) ;;;
     writeToFile launchJsonPath (JSON_stringify launchJson four_spaces)
   else resolve tt) ;;;
  (if createNewFolder then
     vscode_executeCommand "vscode.openFolder" functionAppPath
   else resolve tt).

(** The folder the prompts of [createFunctionApp] end with (lines 77 to
    80), as the answers of the user decide it. *)
Definition answered_path : Completion Err string :=
  match showQuickPick folderPicks
          "Select a workspace folder for your new function app" with
  | Fulfilled folder =>
      if bool_decide (qp_data folder = Some newFolderId)
      then showFolderDialog
      else Fulfilled (qp_label folder)
  | Rejected e => Rejected e
  end.

Definition startFunctionApp (node : option FunctionAppNode) : Async Editor Err unit :=
  match node with
  | Some node =>
      effect (appendLine ("Starting Function App " ++ dquote ++ node_label node ++ dquote ++ "...")) ;;;
      call_node node start ;;;
      effect (appendLine ("Function App " ++ dquote ++ node_label node ++ dquote ++ " has been started."))
  | None => resolve tt
  end.

Definition stopFunctionApp (node : option FunctionAppNode) : Async Editor Err unit :=
  match node with
  | Some node =>
      effect (appendLine ("Stopping Function App " ++ dquote ++ node_label node ++ dquote ++ "...")) ;;;
      call_node node stop ;;;
      effect (appendLine ("Function App " ++ dquote ++ node_label node ++ dquote ++ " has been stopped."))
  | None => resolve tt
  end.

Definition restartFunctionApp (node : option FunctionAppNode) : Async Editor Err unit :=
  match node with
  | Some node =>
      effect (appendLine ("Restarting Function App " ++ dquote ++ node_label node ++ dquote ++ "...")) ;;;
      call_node node restart ;;;
      effect (appendLine ("Function App " ++ dquote ++ node_label node ++ dquote ++ " has been restarted."))
  | None => resolve tt
  end.

End Commands.

(** ** The deployment check (the nightly test that follows [commands.ts]) *)

(** The tags of [ProjectLanguage] that the source names; the enumeration
    itself is declared outside the source. *)
Inductive ProjectLanguage : Type :=
| JavaScript | TypeScript | CSharp | PowerShell | Python.

Definition ProjectLanguage_eqb (a b : ProjectLanguage) : bool :=
  match a, b with
  | JavaScript, JavaScript | TypeScript, TypeScript | CSharp, CSharp
  | PowerShell, PowerShell | Python, Python => true
  | _, _ => false
  end.

(** A scripted input: a string or a regular expression (source, flags). *)
Inductive Input : Type :=
| Text (s : string)
| RegExp (source flags : string).

(** A request of [requestUtils]: a url, a body and the flag that asks for
    JSON serialization. *)
Record Request : Type := {
  url : string;
  body : option Json;
  json : bool
}.

(** What the check does to the world outside it, in order. *)
Inductive Event : Type :=
| AppendLog (message : string)
| TreeRefresh
| ClipboardWrite (text : string)
| ClipboardRead
| RunWithInputs (inputs : list Input) (command : string)
| SendRequest (request : Request).

(** The clipboard, the number of times the scripted command has run, and
    the events so far. *)
Record World : Type := {
  clipboard : string;
  executions : nat;
  trace : list Event
}.

(** What one run of the editor command under [runWithInputs] does: it may
    copy a text to the clipboard, and it may throw. *)
Record CommandOutcome (Err : Type) : Type := {
  copied : option string;
  thrown : option Err
}.
Arguments copied {Err} _.
Arguments thrown {Err} _.

(** What the function handed to [retry] throws: the caught error again,
    or a [retry.AbortError] made from a message. *)
Inductive Thrown (Err : Type) : Type :=
| Again (error : Err)
| AbortError (message : string).
Arguments Again {Err} error.
Arguments AbortError {Err} message.

(** What the check rejects with: an error of a collaborator as it was
    thrown, a [new Error(message)], or an [AssertionError]. *)
Inductive Failure (Err : Type) : Type :=
| Raised (error : Err)
| NewError (message : string)
| AssertionError (message : string).
Arguments Raised {Err} error.
Arguments NewError {Err} message.
Arguments AssertionError {Err} message.

(** The options handed to [retry] at line 274. *)
Record Options : Type := {
  retries : nat;
  minTimeout : Z
}.

(** Modelled from the spec: the [retry] function of the p-retry package,
    which is imported at line 175 and is not part of the source.  The
    input runs with the attempt number, starting at 1, at most
    [retries + 1] times (the log line of the source prints the attempt as
    [currentAttempt/retries + 1]).  A fulfilled attempt ends the loop with
    success; an [AbortError] ends it at once with an error that carries
    the message; any other error leads to the next attempt while the
    budget lasts, and when it is exhausted the last error is the
    result.  The waiting time between attempts is not modelled. *)
Fixpoint retry_from {S Err : Type} (input : nat -> Async S (Thrown Err) unit)
    (remaining attemptNumber : nat) : Async S (Failure Err) unit :=
  fun s =>
    match input attemptNumber s with
    | (Fulfilled _, s') => (Fulfilled tt, s')
    | (Rejected (AbortError message), s') => (Rejected (NewError message), s')
    | (Rejected (Again error), s') =>
        match remaining with
        | O => (Rejected (Raised error), s')
        | Datatypes.S remaining' => retry_from input remaining' (Datatypes.S attemptNumber) s'
        end
    end.

Definition retry {S Err : Type} (input : nat -> Async S (Thrown Err) unit)
    (options : Options) : Async S (Failure Err) unit :=
  retry_from input (retries options) 1.

Definition log_event (e : Event) (w : World) : World :=
  {| clipboard := clipboard w; executions := executions w; trace := trace w ++ [e] |}.

Definition appendLog {E} (message : string) : Async World E unit :=
  effect (log_event (AppendLog message)).

(** Modelled from the spec: [ext.tree.refresh()], which is not part of
    the source: asynchronous, no return value, and it acts on the tree
    only. *)
Definition tree_refresh {E} : Async World E unit :=
  effect (log_event TreeRefresh).

Definition clipboard_writeText {E} (text : string) : Async World E unit :=
  effect (fun w =>
    {| clipboard := text;
       executions := executions w;
       trace := trace w ++ [ClipboardWrite text] |}).

Definition clipboard_readText {E} : Async World E string :=
  fun w => (Fulfilled (clipboard w), log_event ClipboardRead w).

(** Modelled from the spec: [requestUtils.getDefaultRequest], which is
    not part of the source; the request it returns has no body yet. *)
Definition getDefaultRequest {E} (functionUrl : string) : Async World E Request :=
  resolve {| url := functionUrl; body := None; json := false |}.

(** [assert.ok(value, message)]. *)
Definition assert_ok {S Err} (value : bool) (message : string)
  : Async S (Failure Err) unit :=
  if value then resolve tt else throw (AssertionError message).

Definition expected_message : string :=
  "Expected function response to include " ++ dquote ++ "Hello" ++ dquote
  ++ " and " ++ dquote ++ "World" ++ dquote.

Definition attempt_message (currentAttempt retries : nat) : string :=
  "copyFunctionUrl attempt " ++ string_of_nat currentAttempt ++ "/"
  ++ string_of_nat (retries + 1) ++ "...".

Section Deploy.

(** Values thrown by the collaborators of the check. *)
Variable Err : Type.

(** [parseError(error).message]. *)
Variable parseError_message : Err -> string.

(** What the command [azureFunctions.copyFunctionUrl] does when it is
    run for the n-th time (from 0) with the given inputs. *)
Variable ui : nat -> list Input -> CommandOutcome Err.

(** The answer to [requestUtils.sendRequest]. *)
Variable http : Request -> Completion Err string.

Local Open Scope async_scope.

(** [testUserInput.runWithInputs(inputs, () => executeCommand(command))]. *)
Definition runWithInputs (inputs : list Input) (command : string)
  : Async World Err unit :=
  fun w =>
    let outcome := ui (executions w) inputs in
    (match thrown outcome with
     | Some error => Rejected error
     | None => Fulfilled tt
     end,
     {| clipboard := match copied outcome with
                     | Some text => text
                     | None => clipboard w
                     end;
        executions := Datatypes.S (executions w);
        trace := trace w ++ [RunWithInputs inputs command] |}).

Definition sendRequest (request : Request) : Async World (Failure Err) string :=
  fun w =>
    (match http request with
     | Fulfilled response => Fulfilled response
     | Rejected error => Rejected (Raised error)
     end,
     log_event (SendRequest request) w).

Definition copy_inputs (appName functionName : string)
    (projectLanguage : ProjectLanguage) : list Input :=
  let inputs := [Text appName; Text functionName] in
  if negb (ProjectLanguage_eqb projectLanguage CSharp)
  then RegExp "^((?!Local Project).)*$" "i" :: inputs
  else inputs.

Definition copyFunctionUrl (appName functionName : string)
    (projectLanguage : ProjectLanguage) : Async World Err unit :=
  let inputs := copy_inputs appName functionName projectLanguage in
  clipboard_writeText EmptyString ;;;
  runWithInputs inputs "azureFunctions.copyFunctionUrl".

(** The [catch] clause of lines 264 to 271. *)
Definition on_error (functionName : string) (error : Err)
  : Async World (Thrown Err) unit :=
  let message := parseError_message error in
  if includes message "inputs" && includes message functionName
  then throw (Again error)
  else throw (AbortError message).

(** The function handed to [retry] (lines 256 to 273). *)
Definition attempt (retries : nat) (appName functionName : string)
    (projectLanguage : ProjectLanguage) (currentAttempt : nat)
  : Async World (Thrown Err) unit :=
  appendLog (attempt_message currentAttempt retries) ;;;
  (if negb (Nat.eqb currentAttempt 1) then tree_refresh else resolve tt) ;;;
  try_catch (copyFunctionUrl appName functionName projectLanguage)
            (on_error functionName).

(** [validateFunctionUrl] with the constant [retries] of line 254 as a
    parameter. *)
Definition validateFunctionUrl_with (retries : nat) (appName functionName : string)
    (projectLanguage : ProjectLanguage) : Async World (Failure Err) unit :=
  retry (attempt retries appName functionName projectLanguage)
        {| retries := retries; minTimeout := 5 * 1000 |} ;;;
  functionUrl <- clipboard_readText ;;
  request <- getDefaultRequest functionUrl ;;
  let request :=
    {| url := url request;
       body := Some (JObject [("name", JString "World")]);
       json := json request |} in
  let request := {| url := url request; body := body request; json := true |} in
  response <- sendRequest request ;;
  assert_ok (includes response "Hello" && includes response "World") expected_message.

Definition validateFunctionUrl : string -> string -> ProjectLanguage
    -> Async World (Failure Err) unit :=
  validateFunctionUrl_with 4.

End Deploy.

(** ** Vocabulary of the properties *)

(** The files written through [util.writeToFile] among some calls. *)
Fixpoint writes (cs : list Call) : list (string * string) :=
  match cs with
  | [] => []
  | WriteToFile path data :: rest => (path, data) :: writes rest
  | _ :: rest => writes rest
  end.

(** The two scaffold files for a function app path, as path and data. *)
Definition scaffold (functionAppPath : string) : list (string * string) :=
  [ (path_join functionAppPath [".vscode"; "tasks.json"],
     JSON_stringify tasksJson four_spaces);
    (path_join functionAppPath [".vscode"; "launch.json"],
     JSON_stringify launchJson four_spaces) ].

(** Neither scaffold file exists under the path. *)
Definition scaffold_absent (functionAppPath : string) (fs : gmap string string) : bool :=
  match fs !! path_join functionAppPath [".vscode"; "tasks.json"],
        fs !! path_join functionAppPath [".vscode"; "launch.json"] with
  | None, None => true
  | _, _ => false
  end.

Definition is_refresh (e : Event) : bool :=
  match e with TreeRefresh => true | _ => false end.

Definition is_run (e : Event) : bool :=
  match e with RunWithInputs _ _ => true | _ => false end.

Definition is_read (e : Event) : bool :=
  match e with ClipboardRead => true | _ => false end.

Definition is_request (e : Event) : bool :=
  match e with SendRequest _ => true | _ => false end.

Definition count (p : Event -> bool) (t : list Event) : nat :=
  length (List.filter p t).

(** The events of attempt number [j]: the log line, the refresh unless
    [j] is 1, the clearing of the clipboard and the scripted command. *)
Definition attempt_events (retries : nat) (inputs : list Input) (j : nat) : list Event :=
  (AppendLog (attempt_message j retries)
   :: (if Nat.eqb j 1 then [] else [TreeRefresh])
   ++ [ClipboardWrite EmptyString; RunWithInputs inputs "azureFunctions.copyFunctionUrl"])%list.

(** The events of [m] attempts in a row, the first numbered [a]. *)
Definition loop_events (retries : nat) (inputs : list Input) (a m : nat) : list Event :=
  concat (List.map (attempt_events retries inputs) (seq a m)).

(** The request of the final check for a url. *)
Definition check_request (functionUrl : string) : Request :=
  {| url := functionUrl;
     body := Some (JObject [("name", JString "World")]);
     json := true |}.

Section Vocabulary.

Variable Err : Type.
Variable parseError_message : Err -> string.

(** The test of line 267 on the message of an error. *)
Definition retryable (functionName : string) (error : Err) : bool :=
  includes (parseError_message error) "inputs"
  && includes (parseError_message error) functionName.

(** A run of the command that throws an error the loop retries. *)
Definition retryable_failure (functionName : string) (o : CommandOutcome Err) : bool :=
  match thrown o with
  | Some error => retryable functionName error
  | None => false
  end.

(** A run of the command that throws nothing. *)
Definition succeeds (o : CommandOutcome Err) : bool :=
  match thrown o with
  | Some _ => false
  | None => true
  end.

(** How the loop ends on the attempt that met outcome [o]. *)
Definition loop_result (functionName : string) (o : CommandOutcome Err)
  : Completion (Failure Err) unit :=
  match thrown o with
  | None => Fulfilled tt
  | Some error =>
      if retryable functionName error
      then Rejected (Raised error)
      else Rejected (NewError (parseError_message error))
  end.

(** The clipboard after an attempt that met outcome [o]. *)
Definition clipboard_after (o : CommandOutcome Err) : string :=
  match copied o with
  | Some text => text
  | None => EmptyString
  end.

(** The outcome of the final check for an answer to the request. *)
Definition check_result (answer : Completion Err string)
  : Completion (Failure Err) unit :=
  match answer with
  | Fulfilled response =>
      if includes response "Hello" && includes response "World"
      then Fulfilled tt
      else Rejected (AssertionError expected_message)
  | Rejected error => Rejected (Raised error)
  end.

(** What the function handed to [retry] ends with on outcome [o]. *)
Definition attempt_result (functionName : string) (o : CommandOutcome Err)
  : Completion (Thrown Err) unit :=
  match thrown o with
  | None => Fulfilled tt
  | Some error =>
      if retryable functionName error
      then Rejected (Again error)
      else Rejected (AbortError (parseError_message error))
  end.

(** The world after attempt number [j] met outcome [o] in world [w]. *)
Definition attempt_world (retries : nat) (inputs : list Input) (j : nat)
    (o : CommandOutcome Err) (w : World) : World :=
  {| clipboard := clipboard_after o;
     executions := Datatypes.S (executions w);
     trace := (trace w ++ attempt_events retries inputs j)%list |}.

(** The outcome attempt number [j] (from 1) of a loop started in world
    [w] meets. *)
Definition outcome_of_attempt (ui : nat -> list Input -> CommandOutcome Err)
    (inputs : list Input) (w : World) (j : nat) : CommandOutcome Err :=
  ui (executions w + (j - 1)) inputs.

(** The loop with budget [retries] started in [w] ends on attempt [m]:
    the attempts before [m] throw retryable errors, and attempt [m] either
    is the last of the budget or does not throw a retryable error. *)
Definition ends_on (ui : nat -> list Input -> CommandOutcome Err)
    (functionName : string) (inputs : list Input) (w : World)
    (retries m : nat) : Prop :=
  1 <= m <= retries + 1
  /\ (forall j, 1 <= j < m ->
       retryable_failure functionName (outcome_of_attempt ui inputs w j) = true)
  /\ (m = retries + 1
      \/ retryable_failure functionName (outcome_of_attempt ui inputs w m) = false).

(** The world after the final check started in world [w]. *)
Definition check_world (w : World) : World :=
  {| clipboard := clipboard w;
     executions := executions w;
     trace := (trace w ++ [ClipboardRead; SendRequest (check_request (clipboard w))])%list |}.

End Vocabulary.

Arguments retryable {Err} parseError_message functionName error.
Arguments retryable_failure {Err} parseError_message functionName o.
Arguments succeeds {Err} o.
Arguments loop_result {Err} parseError_message functionName o.
Arguments clipboard_after {Err} o.
Arguments check_result {Err} answer.
Arguments attempt_result {Err} parseError_message functionName o.
Arguments attempt_world {Err} retries inputs j o w.
Arguments outcome_of_attempt {Err} ui inputs w j.
Arguments ends_on {Err} parseError_message ui functionName inputs w retries m.
Arguments startFunctionApp {Err} node_method node.
Arguments stopFunctionApp {Err} node_method node.
Arguments restartFunctionApp {Err} node_method node.
Arguments createFunctionApp {Err}.
Arguments answered_path {Err}.
Arguments runWithInputs {Err} ui inputs command.
Arguments copyFunctionUrl {Err} ui appName functionName projectLanguage.
Arguments on_error {Err} parseError_message functionName error.
Arguments attempt {Err} parseError_message ui retries appName functionName projectLanguage currentAttempt.
Arguments validateFunctionUrl_with {Err} parseError_message ui http retries appName functionName projectLanguage.
Arguments validateFunctionUrl {Err} parseError_message ui http _ _ _.
Arguments sendRequest {Err} http request.

(** ** Scenarios of the specification *)

(** The command fails three times with the message of the race, then
    copies the url of the function. *)
Definition race_then_url (n : nat) (_ : list Input) : CommandOutcome string :=
  if Nat.ltb n 3
  then {| copied := None; thrown := Some "Not all inputs were used: funcAB12" |}
  else {| copied := Some "https://appX.azurewebsites.net/api/funcAB12"; thrown := None |}.

(** The command fails with a message that does not name the function. *)
Definition network_timeout (n : nat) (_ : list Input) : CommandOutcome string :=
  {| copied := None; thrown := Some "network timeout" |}.

(** The command fails with the message of the race every time; the
    message carries the number of the run. *)
Definition always_race (n : nat) (_ : list Input) : CommandOutcome string :=
  {| copied := None;
     thrown := Some ("Not all inputs were used: funcAB12 #" ++ string_of_nat n) |}.

Definition greeting (_ : Request) : Completion string string :=
  Fulfilled "Hello, World!".

Definition message_of (error : string) : string := error.

Definition fresh_world : World :=
  {| clipboard := "left over"; executions := 0; trace := [] |}.

(** ** The rest of the command layer *)

(** The files a function app folder is expected to hold (lines 16 to
    20); the last one is [path.join(".vscode", "launch.json")]. *)
Definition _expectedFunctionAppFiles : list string :=
  [ "host.json"; "local.settings.json"; path_join ".vscode" ["launch.json"] ].

Definition _yes : string := "Yes".
Definition _no : string := "No".

(** A node of the tree as [openInPortal] reads it: its id and its
    optional tenant id. *)
Record INode : Type := {
  node_id : string;
  node_tenantId : option string
}.

(** Truthiness of an optional string: defined and not empty. *)
Definition truthy (s : option string) : bool :=
  match s with
  | Some (String _ _) => true
  | _ => false
  end.

(** [openInPortal], on the list of the urls handed to [opn]. *)
Definition openInPortal (node : option INode) (opened : list string) : list string :=
  match node with
  | Some node =>
      if truthy (node_tenantId node)
      then (opened
            ++ [("https://portal.azure.com/" ++ default EmptyString (node_tenantId node)
                 ++ "/#resource" ++ node_id node)%string])%list
      else opened
  | None => opened
  end.

Definition getMissingFunctionAppFiles (rootPath : string) (ed : Editor) : list string :=
  List.filter (fun file => negb (fs_existsSync (path_join rootPath [file]) ed))
    _expectedFunctionAppFiles.

(** [validateTemplateName]; the second test answers for a file at the
    joined path (see [fs_existsSync] and [path_join]). *)
Definition validateTemplateName (rootPath name : string) (ed : Editor) : option string :=
  match name with
  | EmptyString => Some "The template name cannot be empty."
  | _ =>
      if fs_existsSync (path_join rootPath [name]) ed
      then Some ("A folder with the name " ++ dquote ++ name ++ dquote ++ " already exists.")
      else None
  end.

(** The line each of the three node commands logs before it calls the
    node, and the line it logs after the call (lines 135 to 153). *)
Definition progress_line (m : NodeMethod) (label : string) : string :=
  match m with
  | start => "Starting"
  | stop => "Stopping"
  | restart => "Restarting"
  end ++ " Function App " ++ dquote ++ label ++ dquote ++ "...".

Definition done_line (m : NodeMethod) (label : string) : string :=
  "Function App " ++ dquote ++ label ++ dquote ++ " has been "
  ++ match m with
     | start => "started"
     | stop => "stopped"
     | restart => "restarted"
     end ++ ".".

(** The command of the command layer for a method of a node. *)
Definition node_command {Err : Type}
    (node_method : FunctionAppNode -> NodeMethod -> Completion Err unit)
    (m : NodeMethod) : option FunctionAppNode -> Async Editor Err unit :=
  match m with
  | start => startFunctionApp node_method
  | stop => stopFunctionApp node_method
  | restart => restartFunctionApp node_method
  end.

(** The item of the quick pick of [createFunctionApp] that stands for a
    new folder. *)
Definition newFolderItem : QuickPickItemWithData :=
  {| qp_label := "$(plus) New Folder";
     qp_description := None;
     qp_data := Some newFolderId |}.

(** What [createFunction] rejects with: the two errors of [util] it
    throws itself, or an error of a collaborator. *)
Inductive CommandError (Err : Type) : Type :=
| NoWorkspaceError
| UserCancelledError
| Collaborator (error : Err).
Arguments NoWorkspaceError {Err}.
Arguments UserCancelledError {Err}.
Arguments Collaborator {Err} error.

(** The prompts [createFunction] shows and the calls it makes beside
    those recorded in the editor, in order. *)
Inductive Step : Type :=
| ShowQuickPick (items : list QuickPickItemWithData) (placeHolder : string)
| ShowWarningMessage (message : string) (items : list string)
| ShowInputBox (placeHolder prompt : string) (ignoreFocusOut : bool)
| CliCreateFunction (functionAppPath templateName name : string)
| OpenTextDocument (path : string)
| ShowTextDocument (path : string).

Record Session : Type := {
  editor : Editor;
  steps : list Step
}.

(** The templates offered by [createFunction] (lines 55 to 60). *)
Definition templates : list QuickPickItemWithData :=
  List.map (fun label => {| qp_label := label; qp_description := None; qp_data := None |})
    [ "BlobTrigger"; "HttpTrigger"; "QueueTrigger"; "TimerTrigger" ].

(** The warning of line 45 for a list of missing files. *)
Definition missing_files_message (missingFiles : list string) : string :=
  "The current folder is missing the following function app files: '"
  ++ join "', '" missingFiles ++ "'. Add the missing files?".

Section CreateFunction.

Variable Err : Type.
Variable workspaceFolders : option (list string).
Variable showQuickPick :
  list QuickPickItemWithData -> string -> Completion Err QuickPickItemWithData.

(** The answer to [vscode.window.showWarningMessage]: the item chosen, or
    undefined when the message is dismissed. *)
Variable showWarningMessage : string -> list string -> Completion Err (option string).

(** The answer to [util.showInputBox], which is handed the validator. *)
Variable showInputBox :
  string -> string -> bool -> (string -> option string) -> Completion Err string.

Variable func_init :
  string -> gmap string string -> Completion Err unit * gmap string string * list string.

(** [functionsCli.createFunction]: what the command-line tool does to the
    files for a path, a template and a name, the lines it logs, and
    whether it fails. *)
Variable func_new :
  string -> string -> string -> gmap string string
  -> Completion Err unit * gmap string string * list string.

(** The outcome of [vscode.workspace.openTextDocument]. *)
Variable openTextDocument : string -> Completion Err unit.

Local Open Scope async_scope.

Definition collaborator {A} (c : Completion Err A) : Async Session (CommandError Err) A :=
  fun s =>
    (match c with
     | Fulfilled a => Fulfilled a
     | Rejected e => Rejected (Collaborator e)
     end, s).

Definition log_step (st : Step) : Async Session (CommandError Err) unit :=
  effect (fun s => {| editor := editor s; steps := steps s ++ [st] |}).

(** An action of the command layer run on the editor of the session. *)
Definition in_editor {A} (m : Async Editor Err A) : Async Session (CommandError Err) A :=
  fun s =>
    let '(c, ed') := m (editor s) in
    (match c with
     | Fulfilled a => Fulfilled a
     | Rejected e => Rejected (Collaborator e)
     end,
     {| editor := ed'; steps := steps s |}).

Definition functionsCli_createFunction (functionAppPath templateName name : string)
  : Async Session (CommandError Err) unit :=
  log_step (CliCreateFunction functionAppPath templateName name) ;;;
  in_editor (fun ed =>
    let '(c, files', lines) := func_new functionAppPath templateName name (files ed) in
    (c, {| files := files'; channel := channel ed ++ lines; calls := calls ed |})).

(** Lines 31 to 41: the folder of the function app. *)
Definition pick_functionAppPath : Async Session (CommandError Err) string :=
  let folders := workspaceFolders in
  match folders with
  | None => throw NoWorkspaceError
  | Some [] => throw NoWorkspaceError
  | Some [folder] => resolve folder
  | Some folders =>
      let folderPicks :=
        List.map (fun f => {| qp_label := f; qp_description := None; qp_data := None |})
          folders in
      log_step (ShowQuickPick folderPicks "Select a workspace folder for your new function") ;;;
      folder <- collaborator
                  (showQuickPick folderPicks
                     "Select a workspace folder for your new function") ;;
      resolve (qp_label folder)
  end.

(** Lines 43 to 51: the missing files are added when the user agrees. *)
Definition add_missing_files (functionAppPath : string)
  : Async Session (CommandError Err) unit :=
  missingFiles <-
    (fun s => (Fulfilled (getMissingFunctionAppFiles functionAppPath (editor s)), s)) ;;
  if negb (Nat.eqb (length missingFiles) 0) then
    log_step (ShowWarningMessage (missing_files_message missingFiles) [_yes; _no]) ;;;
    result <- collaborator
                (showWarningMessage (missing_files_message missingFiles) [_yes; _no]) ;;
    if match result with
       | Some answer => String.eqb answer _yes
       | None => false
       end
    then in_editor (functionsCli_createFunctionApp Err func_init functionAppPath)
    else throw UserCancelledError
  else resolve tt.

(** Lines 53 to 67: the template, the name, the function and its file. *)
Definition add_function (functionAppPath : string)
  : Async Session (CommandError Err) unit :=
  log_step (ShowQuickPick templates "Select a function template") ;;;
  template <- collaborator (showQuickPick templates "Select a function template") ;;
  validate <-
    (fun s => (Fulfilled (fun name => validateTemplateName functionAppPath name (editor s)), s)) ;;
  log_step (ShowInputBox "Function Name" "Provide a function name" false) ;;;
  name <- collaborator
            (showInputBox "Function Name" "Provide a function name" false validate) ;;
  functionsCli_createFunction functionAppPath (qp_label template) name ;;;
  let newFileUri := path_join functionAppPath [name; "index.js"] in
  log_step (OpenTextDocument newFileUri) ;;;
  collaborator (openTextDocument newFileUri) ;;;
  log_step (ShowTextDocument newFileUri).

Definition createFunction : Async Session (CommandError Err) unit :=
  functionAppPath <- pick_functionAppPath ;;
  add_missing_files functionAppPath ;;;
  add_function functionAppPath.

(** The folder the first prompt of [createFunction] ends with, as the
    workspace and the answer of the user decide it. *)
Definition answered_folder : Completion (CommandError Err) string :=
  match workspaceFolders with
  | None => Rejected NoWorkspaceError
  | Some [] => Rejected NoWorkspaceError
  | Some [folder] => Fulfilled folder
  | Some folders =>
      match showQuickPick
              (List.map (fun f => {| qp_label := f; qp_description := None; qp_data := None |})
                 folders)
              "Select a workspace folder for your new function" with
      | Fulfilled folder => Fulfilled (qp_label folder)
      | Rejected e => Rejected (Collaborator e)
      end
  end.

End CreateFunction.

Arguments createFunction {Err}.
Arguments pick_functionAppPath {Err}.
Arguments add_missing_files {Err}.
Arguments add_function {Err}.
Arguments answered_folder {Err}.
Arguments functionsCli_createFunction {Err}.

(** The function names created through [CliCreateFunction] among some
    steps, with their path. *)
Fixpoint created (sts : list Step) : list (string * string * string) :=
  match sts with
  | [] => []
  | CliCreateFunction path template name :: rest => (path, template, name) :: created rest
  | _ :: rest => created rest
  end.

(** The user is asked to add missing files and answers Yes. *)
Definition adds_missing_files {Err : Type}
    (showWarningMessage : string -> list string -> Completion Err (option string))
    (functionAppPath : string) (ed : Editor) : bool :=
  match getMissingFunctionAppFiles functionAppPath ed with
  | [] => false
  | missing =>
      match showWarningMessage (missing_files_message missing) [_yes; _no] with
      | Fulfilled answer => bool_decide (answer = Some _yes)
      | Rejected _ => false
      end
  end.

Definition is_warning (st : Step) : bool :=
  match st with ShowWarningMessage _ _ => true | _ => false end.

(** ** The rest of the deployment test *)

(** The options of [validateProject]: what the project is expected to
    hold, which this test does not read, and the excluded paths. *)
Record IValidateProjectOptions (Expect : Type) : Type := {
  expectations : Expect;
  excludedPaths : option (list string)
}.
Arguments expectations {Expect} _.
Arguments excludedPaths {Expect} _.

(** The calls of the test beside the events of the world. *)
Inductive TestStep : Type :=
| EmptyDir (path : string)
| ValidateProject (path : string) (excluded : option (list string)).

(** What a test run acts on: the world of the check, the resource groups
    registered for deletion, the number of random strings drawn, and the
    calls so far. *)
Record TestRun : Type := {
  world : World;
  resourceGroupsToDelete : list string;
  hex_drawn : nat;
  test_steps : list TestStep
}.

Section CreateProjectAndDeploy.

Variable Err : Type.
Variable parseError_message : Err -> string.
Variable ui : nat -> list Input -> CommandOutcome Err.
Variable http : Request -> Completion Err string.

Variable Expect : Type.

(** [testWorkspacePath] of the test globals and the string of a language
    tag. *)
Variable testWorkspacePath : string.
Variable language_name : ProjectLanguage -> string.

(** The n-th string (from 0) that [getRandomHexString] returns. *)
Variable getRandomHexString : nat -> string.

(** What [getRotatingAuthLevel] and [getRotatingLocation] return in this
    run. *)
Variable authLevel : Input.
Variable location : Input.

(** The outcomes of [fse.emptyDir] and of [validateProject]. *)
Variable emptyDir : string -> Completion Err unit.
Variable validateProject :
  string -> IValidateProjectOptions Expect -> Completion Err unit.

Local Open Scope async_scope.

Definition raised {A} (c : Completion Err A) : Completion (Failure Err) A :=
  match c with
  | Fulfilled a => Fulfilled a
  | Rejected e => Rejected (Raised e)
  end.

Definition in_world {E A} (m : Async World E A) : Async TestRun E A :=
  fun t =>
    let '(c, w') := m (world t) in
    (c, {| world := w';
           resourceGroupsToDelete := resourceGroupsToDelete t;
           hex_drawn := hex_drawn t;
           test_steps := test_steps t |}).

Definition draw_hex : Async TestRun (Failure Err) string :=
  fun t =>
    (Fulfilled (getRandomHexString (hex_drawn t)),
     {| world := world t;
        resourceGroupsToDelete := resourceGroupsToDelete t;
        hex_drawn := Datatypes.S (hex_drawn t);
        test_steps := test_steps t |}).

Definition test_call {A} (st : TestStep) (c : Completion Err A)
  : Async TestRun (Failure Err) A :=
  fun t =>
    (raised c,
     {| world := world t;
        resourceGroupsToDelete := resourceGroupsToDelete t;
        hex_drawn := hex_drawn t;
        test_steps := test_steps t ++ [st] |}).

Definition resourceGroupsToDelete_push (name : string) : Async TestRun (Failure Err) unit :=
  effect (fun t =>
    {| world := world t;
       resourceGroupsToDelete := resourceGroupsToDelete t ++ [name];
       hex_drawn := hex_drawn t;
       test_steps := test_steps t |}).

(** The scripted command of the test, with its errors as they are
    thrown. *)
Definition run_command (inputs : list Input) (command : string)
  : Async TestRun (Failure Err) unit :=
  in_world (fun w =>
    let '(c, w') := runWithInputs ui inputs command w in (raised c, w')).

Definition project_inputs (projectLanguage : ProjectLanguage) (functionName : string)
    (languageSpecificInputs : list Input) : list Input :=
  ([Text testWorkspacePath; Text (language_name projectLanguage);
    RegExp "http\s*trigger" "i"; Text functionName]
   ++ languageSpecificInputs ++ [authLevel])%list.

Definition deploy_inputs (appName : string) : list Input :=
  [RegExp "create new function app" "i"; Text appName; location].

Definition testCreateProjectAndDeploy
    (validateProjectOptions : IValidateProjectOptions Expect)
    (projectLanguage : ProjectLanguage) (languageSpecificInputs : list Input)
  : Async TestRun (Failure Err) unit :=
  hex <- draw_hex ;;
  let functionName := "func" ++ hex in
  test_call (EmptyDir testWorkspacePath) (emptyDir testWorkspacePath) ;;;
  run_command (project_inputs projectLanguage functionName languageSpecificInputs)
    "azureFunctions.createNewProject" ;;;
  let validateProjectOptions :=
    {| expectations := expectations validateProjectOptions;
       excludedPaths :=
         Some (default [] (excludedPaths validateProjectOptions) ++ [".git"])%list |} in
  test_call (ValidateProject testWorkspacePath (excludedPaths validateProjectOptions))
    (validateProject testWorkspacePath validateProjectOptions) ;;;
  hex <- draw_hex ;;
  let appName := "funcBasic" ++ hex in
  resourceGroupsToDelete_push appName ;;;
  run_command (deploy_inputs appName) "azureFunctions.deploy" ;;;
  in_world (validateFunctionUrl parseError_message ui http appName functionName projectLanguage).

(** The part of the test before the deployment succeeds: the folder is
    emptied, the project is created and the project is valid. *)
Definition project_created (validateProjectOptions : IValidateProjectOptions Expect)
    (projectLanguage : ProjectLanguage) (languageSpecificInputs : list Input)
    (t : TestRun) : bool :=
  match emptyDir testWorkspacePath,
        thrown (ui (executions (world t))
                  (project_inputs projectLanguage
                     ("func" ++ getRandomHexString (hex_drawn t)) languageSpecificInputs)),
        validateProject testWorkspacePath
          {| expectations := expectations validateProjectOptions;
             excludedPaths :=
               Some (default [] (excludedPaths validateProjectOptions) ++ [".git"])%list |} with
  | Fulfilled _, None, Fulfilled _ => true
  | _, _, _ => false
  end.

End CreateProjectAndDeploy.

Arguments testCreateProjectAndDeploy {Err} parseError_message ui http {Expect}.
Arguments project_created {Err} ui {Expect}.

(** ** Scenarios of the command layer *)

(** An editor with no file, and one whose folder [/work] holds the three
    expected files. *)
Definition empty_editor : Editor :=
  {| files := ∅; channel := []; calls := [] |}.

Definition complete_editor : Editor :=
  {| files :=
       <["/work/host.json" := "{}"]>
         (<["/work/local.settings.json" := "{}"]>
            (<["/work/.vscode/launch.json" := "{}"]> ∅));
     channel := [];
     calls := [] |}.

(** The user picks the new folder item, then the folder [/new]. *)
Definition pick_new_folder (_ : list QuickPickItemWithData) (_ : string)
  : Completion unit QuickPickItemWithData :=
  Fulfilled newFolderItem.

(** The user picks the template [HttpTrigger] whatever is offered. *)
Definition pick_http_trigger (_ : list QuickPickItemWithData) (_ : string)
  : Completion unit QuickPickItemWithData :=
  Fulfilled {| qp_label := "HttpTrigger"; qp_description := None; qp_data := None |}.

(** The user answers the warning with No. *)
Definition answer_no (_ : string) (_ : list string) : Completion unit (option string) :=
  Fulfilled (Some _no).

(** An input box that offers the name [hello] and honours its
    validator. *)
Definition enter_hello (_ _ : string) (_ : bool) (validate : string -> option string)
  : Completion unit string :=
  match validate "hello" with
  | None => Fulfilled "hello"
  | Some _ => Rejected tt
  end.

(** A command-line tool that succeeds and changes no file, and one that
    adds the file of the new function. *)
Definition init_nothing (_ : string) (fs : gmap string string)
  : Completion unit unit * gmap string string * list string :=
  (Fulfilled tt, fs, []).

Definition new_function (path _ name : string) (fs : gmap string string)
  : Completion unit unit * gmap string string * list string :=
  (Fulfilled tt, <[path_join path [name; "index.js"] := EmptyString]> fs, []).

Definition open_ok (_ : string) : Completion unit unit := Fulfilled tt.

Definition start_session (ed : Editor) : Session := {| editor := ed; steps := [] |}.

(** A request that fails. *)
Definition unavailable (_ : Request) : Completion string string :=
  Rejected "503".

(** ** The text of the scaffold files *)

(** A word between double quotes. *)
Definition quoted (s : string) : string := dquote ++ s ++ dquote.

(** The text [createFunctionApp] writes to [tasks.json], line by line. *)
Definition tasks_json_text : string :=
  String.concat newline
    [ "{";
      "    " ++ quoted "version" ++ ": " ++ quoted "2.0.0" ++ ",";
      "    " ++ quoted "tasks" ++ ": [";
      "        {";
      "            " ++ quoted "taskName" ++ ": " ++ quoted "Launch Function App" ++ ",";
      "            " ++ quoted "identifier" ++ ": " ++ quoted "launchFunctionApp" ++ ",";
      "            " ++ quoted "type" ++ ": " ++ quoted "shell" ++ ",";
      "            " ++ quoted "command" ++ ": " ++ quoted "func host start" ++ ",";
      "            " ++ quoted "group" ++ ": " ++ quoted "none" ++ ",";
      "            " ++ quoted "presentation" ++ ": {";
      "                " ++ quoted "reveal" ++ ": " ++ quoted "always" ++ ",";
      "                " ++ quoted "panel" ++ ": " ++ quoted "dedicated";
      "            },";
      "            " ++ quoted "isBackground" ++ ": true";
      "        }";
      "    ]";
      "}" ].

(** The text [createFunctionApp] writes to [launch.json], line by line. *)
Definition launch_json_text : string :=
  String.concat newline
    [ "{";
      "    " ++ quoted "version" ++ ": " ++ quoted "0.2.0" ++ ",";
      "    " ++ quoted "configurations" ++ ": [";
      "        {";
      "            " ++ quoted "name" ++ ": " ++ quoted "Attach to Azure Functions" ++ ",";
      "            " ++ quoted "type" ++ ": " ++ quoted "node" ++ ",";
      "            " ++ quoted "request" ++ ": " ++ quoted "attach" ++ ",";
      "            " ++ quoted "port" ++ ": 5858,";
      "            " ++ quoted "preLaunchTask" ++ ": " ++ quoted "launchFunctionApp";
      "        }";
      "    ]";
      "}" ].

(** The user picks the workspace folder [/work]. *)
Definition pick_work (_ : list QuickPickItemWithData) (_ : string)
  : Completion unit QuickPickItemWithData :=
  Fulfilled {| qp_label := "/work"; qp_description := None; qp_data := None |}.

(** A command-line tool that fails and changes no file. *)
Definition init_fails (_ : string) (fs : gmap string string)
  : Completion unit unit * gmap string string * list string :=
  (Rejected tt, fs, []).

(** A workspace whose only folder carries the label of the new folder
    item, and the user picking that folder. *)
Definition odd_workspace : option (list string) := Some ["$(plus) New Folder"].

Definition pick_odd_folder (_ : list QuickPickItemWithData) (_ : string)
  : Completion unit QuickPickItemWithData :=
  Fulfilled {| qp_label := "$(plus) New Folder"; qp_description := None; qp_data := None |}.

(** * Properties *)

(** ** Strings *)

Lemma prefix_iff (p s : string) :
  String.prefix p s = true <-> exists rest, s = p ++ rest.
Proof.
  revert s. induction p as [|c p IH]; intros s.
  - split; [intros _; exists s; reflexivity | intros _; destruct s; reflexivity].
  - destruct s as [|d s]; simpl.
    + split; [discriminate | intros [rest H]; discriminate].
    + destruct (ascii_dec c d) as [->|Hne].
      * rewrite IH. split; intros [rest H]; exists rest.
        -- subst. reflexivity.
        -- injection H as H. exact H.
      * split; [discriminate | intros [rest H]]. injection H as H1 H2. congruence.
Qed.

Lemma includes_nil (search : string) :
  includes EmptyString search = String.prefix search EmptyString.
Proof. unfold includes. destruct (String.prefix search EmptyString); reflexivity. Qed.

Lemma includes_cons (c : ascii) (s search : string) :
  includes (String c s) search
  = String.prefix search (String c s) || includes s search.
Proof.
  change (includes (String c s) search)
    with (if String.prefix search (String c s) then true else includes s search).
  destruct (String.prefix search (String c s)); reflexivity.
Qed.

(** [includes] is the substring test. *)
Lemma includes_iff (s search : string) :
  includes s search = true <-> exists before after, s = before ++ search ++ after.
Proof.
  induction s as [|c s IH].
  - rewrite includes_nil, prefix_iff. split.
    + intros [rest H]. exists EmptyString, rest. exact H.
    + intros (before & after & H). destruct before; [|discriminate].
      exists after. exact H.
  - rewrite includes_cons, orb_true_iff, prefix_iff, IH. split.
    + intros [[rest H] | (before & after & H)].
      * exists EmptyString, rest. exact H.
      * exists (String c before), after. rewrite H. reflexivity.
    + intros (before & after & H). destruct before as [|d before].
      * left. exists after. exact H.
      * right. injection H as _ H. exists before, after. exact H.
Qed.

Lemma path_join_vscode (base name : string) :
  path_join base [".vscode"; name] = base ++ "/.vscode/" ++ name.
Proof.
  unfold path_join. cbn [fold_left].
  induction base as [|c base IH]; [reflexivity|].
  simpl in *. rewrite IH. reflexivity.
Qed.

Lemma tasks_launch_paths_differ (base : string) :
  path_join base [".vscode"; "tasks.json"] <> path_join base [".vscode"; "launch.json"].
Proof.
  rewrite !path_join_vscode. intros H.
  induction base as [|c base IH]; simpl in H; [discriminate | injection H as H; auto].
Qed.


(** ** The command layer *)

Lemma writes_app (cs ds : list Call) : writes (cs ++ ds) = (writes cs ++ writes ds)%list.
Proof.
  induction cs as [|c cs IH]; [reflexivity|].
  destruct c; simpl; rewrite IH; reflexivity.
Qed.

Section CommandProperties.

#[local] Arguments path_join : simpl never.

Variable Err : Type.
Variable workspaceFolders : option (list string).
Variable showQuickPick :
  list QuickPickItemWithData -> string -> Completion Err QuickPickItemWithData.
Variable showFolderDialog : Completion Err string.
Variable func_init :
  string -> gmap string string -> Completion Err unit * gmap string string * list string.
Variable executeCommand : string -> string -> Completion Err unit.
Variable node_method : FunctionAppNode -> NodeMethod -> Completion Err unit.

Lemma existsSync_absent (path : string) (ed : Editor) :
  negb (fs_existsSync (path_join path [".vscode"; "tasks.json"]) ed)
  && negb (fs_existsSync (path_join path [".vscode"; "launch.json"]) ed)
  = scaffold_absent path (files ed).
Proof.
  unfold fs_existsSync, scaffold_absent.
  destruct (files ed !! path_join path [".vscode"; "tasks.json"]);
    destruct (files ed !! path_join path [".vscode"; "launch.json"]); reflexivity.
Qed.

(** The files and the writes [createFunctionApp] ends with, once the
    prompts gave a path: the scaffold is written when the command-line
    tool succeeded and neither file existed before it ran. *)
Lemma createFunctionApp_files (ed : Editor) (path : string) :
  answered_path workspaceFolders showQuickPick showFolderDialog = Fulfilled path ->
  let after_cli := (func_init path (files ed)).1.2 in
  let written :=
    match (func_init path (files ed)).1.1 with
    | Fulfilled _ => scaffold_absent path (files ed)
    | Rejected _ => false
    end in
  let ed' := (createFunctionApp workspaceFolders showQuickPick showFolderDialog
                func_init executeCommand ed).2 in
  writes (calls ed') = (writes (calls ed) ++ if written then scaffold path else [])%list
  /\ files ed'
     = if written
       then <[path_join path [".vscode"; "launch.json"] := JSON_stringify launchJson four_spaces]>
              (<[path_join path [".vscode"; "tasks.json"] := JSON_stringify tasksJson four_spaces]>
                 after_cli)
       else after_cli.
Proof.
  intros Hpath. unfold answered_path in Hpath.
  unfold createFunctionApp, await, settle, resolve.
  destruct (showQuickPick _ _) as [folder|e]; [|discriminate].
  destruct (bool_decide (qp_data folder = Some newFolderId)).
  - rewrite Hpath. rewrite existsSync_absent.
    unfold functionsCli_createFunctionApp.
    destruct (func_init path (files ed)) as [[[[]|e] files'] lines] eqn:Hf.
    + unfold vscode_executeCommand, writeToFile, await, effect, settle, record_call.
      destruct (scaffold_absent path (files ed)); simpl;
        destruct (executeCommand "vscode.openFolder" path); simpl;
        rewrite !writes_app; simpl; rewrite ?app_nil_r, <- ?app_assoc;
        split; reflexivity.
    + simpl. rewrite writes_app. simpl. rewrite !app_nil_r. split; reflexivity.
  - injection Hpath as Hpath. rewrite Hpath. rewrite existsSync_absent.
    unfold functionsCli_createFunctionApp.
    destruct (func_init path (files ed)) as [[[[]|e] files'] lines] eqn:Hf.
    + unfold writeToFile, await, effect.
      destruct (scaffold_absent path (files ed)); simpl;
        rewrite !writes_app; simpl; rewrite ?app_nil_r, <- ?app_assoc;
        split; reflexivity.
    + simpl. rewrite writes_app. simpl. rewrite !app_nil_r. split; reflexivity.
Qed.

Lemma scaffold_absent_true (path : string) (fs : gmap string string) :
  scaffold_absent path fs = true
  <-> fs !! path_join path [".vscode"; "tasks.json"] = None
      /\ fs !! path_join path [".vscode"; "launch.json"] = None.
Proof.
  unfold scaffold_absent.
  destruct (fs !! path_join path [".vscode"; "tasks.json"]);
    destruct (fs !! path_join path [".vscode"; "launch.json"]);
    split; try discriminate; try (intros [? ?]; discriminate); auto.
Qed.

Lemma scaffold_absent_false (path : string) (fs : gmap string string) :
  scaffold_absent path fs = false
  <-> is_Some (fs !! path_join path [".vscode"; "tasks.json"])
      \/ is_Some (fs !! path_join path [".vscode"; "launch.json"]).
Proof.
  unfold scaffold_absent.
  destruct (fs !! path_join path [".vscode"; "tasks.json"]);
    destruct (fs !! path_join path [".vscode"; "launch.json"]);
    split; try discriminate; eauto;
    intros [[? ?] | [? ?]]; discriminate.
Qed.

(** With a node, [startFunctionApp] logs, calls [start] on the node and,
    when that succeeds, logs again. *)
Lemma startFunctionApp_node (node : FunctionAppNode) (ed : Editor) :
  node_method node start = Fulfilled tt ->
  startFunctionApp node_method (Some node) ed
  = (Fulfilled tt,
     {| files := files ed;
        channel :=
          (channel ed
           ++ [("Starting Function App " ++ dquote ++ node_label node ++ dquote ++ "...")%string;
               ("Function App " ++ dquote ++ node_label node ++ dquote ++ " has been started.")%string])%list;
        calls := (calls ed ++ [NodeCall node start])%list |}).
Proof.
  intros H. unfold startFunctionApp, call_node, await, effect, settle. simpl.
  rewrite H. unfold appendLine. simpl. rewrite <- app_assoc. reflexivity.
Qed.

(** C10. With an undefined node, [startFunctionApp], [stopFunctionApp]
    and [restartFunctionApp] do nothing: each is fulfilled and leaves the
    editor as it was, so no method of a node is called and no line is
    appended to the output channel. *)
Theorem undefined_node_is_noop (ed : Editor) :
  startFunctionApp node_method None ed = (Fulfilled tt, ed)
  /\ stopFunctionApp node_method None ed = (Fulfilled tt, ed)
  /\ restartFunctionApp node_method None ed = (Fulfilled tt, ed).
Proof. repeat split. Qed.

(** The text of the two scaffold files is the serialization of the two
    object literals of the source with a gap of four spaces. *)
Lemma scaffold_text :
  JSON_stringify tasksJson four_spaces = tasks_json_text
  /\ JSON_stringify launchJson four_spaces = launch_json_text.
Proof. split; reflexivity. Qed.

(** C7. Once the prompts of [createFunctionApp] gave a path, [tasks.json]
    and [launch.json] are written exactly when neither existed in the
    [.vscode] folder of the path beforehand and the command-line tool
    succeeds: then both are written (and nothing else) and hold the text
    of [tasks_json_text] and [launch_json_text]; if either existed
    beforehand, or if the tool fails, nothing is written and the files
    are as the tool left them.  The text of [tasks.json] is that of the
    object literal [tasksJson], which has version 2.0.0 and one task, a
    shell task named Launch Function App with identifier
    launchFunctionApp and isBackground true; the text of [launch.json]
    is that of [launchJson], which has version 0.2.0 and one
    configuration, an attach request on port 5858 whose preLaunchTask is
    that identifier. *)
Theorem createFunctionApp_scaffold (ed : Editor) (path : string) :
  answered_path workspaceFolders showQuickPick showFolderDialog = Fulfilled path ->
  let tasksJsonPath := path_join path [".vscode"; "tasks.json"] in
  let launchJsonPath := path_join path [".vscode"; "launch.json"] in
  let after_cli := (func_init path (files ed)).1.2 in
  let ed' := (createFunctionApp workspaceFolders showQuickPick showFolderDialog
                func_init executeCommand ed).2 in
  (files ed !! tasksJsonPath = None /\ files ed !! launchJsonPath = None ->
   (func_init path (files ed)).1.1 = Fulfilled tt ->
     writes (calls ed')
     = (writes (calls ed)
        ++ [(tasksJsonPath, tasks_json_text); (launchJsonPath, launch_json_text)])%list
     /\ files ed' !! tasksJsonPath = Some tasks_json_text
     /\ files ed' !! launchJsonPath = Some launch_json_text)
  /\ (is_Some (files ed !! tasksJsonPath) \/ is_Some (files ed !! launchJsonPath) ->
      writes (calls ed') = writes (calls ed) /\ files ed' = after_cli)
  /\ (forall e, (func_init path (files ed)).1.1 = Rejected e ->
      writes (calls ed') = writes (calls ed) /\ files ed' = after_cli)
  /\ (tasks_json_text = JSON_stringify tasksJson four_spaces
      /\ exists task,
           member "version" tasksJson = Some (JString "2.0.0")
           /\ member "tasks" tasksJson = Some (JArray [task])
           /\ member "taskName" task = Some (JString "Launch Function App")
           /\ member "identifier" task = Some (JString "launchFunctionApp")
           /\ member "type" task = Some (JString "shell")
           /\ member "isBackground" task = Some (JBool true))
  /\ (launch_json_text = JSON_stringify launchJson four_spaces
      /\ exists configuration,
           member "version" launchJson = Some (JString "0.2.0")
           /\ member "configurations" launchJson = Some (JArray [configuration])
           /\ member "request" configuration = Some (JString "attach")
           /\ member "port" configuration = Some (JNumber 5858)
           /\ member "preLaunchTask" configuration = Some (JString "launchFunctionApp")).
Proof.
  intros Hpath tasksJsonPath launchJsonPath after_cli ed'.
  destruct (createFunctionApp_files ed path Hpath) as [Hw Hf].
  fold after_cli in Hf. fold ed' in Hw, Hf.
  destruct scaffold_text as [Htasks Hlaunch].
  unfold scaffold in Hw. rewrite Htasks, Hlaunch in Hw, Hf.
  split; [|split; [|split; [|split]]].
  - intros Habsent Hcli. apply scaffold_absent_true in Habsent.
    rewrite Hcli, Habsent in Hw, Hf. split; [exact Hw|]. rewrite Hf. split.
    + rewrite lookup_insert_ne by (apply not_eq_sym, tasks_launch_paths_differ).
      apply lookup_insert_eq.
    + apply lookup_insert_eq.
  - intros Hsome. apply scaffold_absent_false in Hsome.
    rewrite Hsome in Hw, Hf.
    destruct ((func_init path (files ed)).1.1);
      rewrite app_nil_r in Hw; split; assumption.
  - intros e Hcli. rewrite Hcli in Hw, Hf. rewrite app_nil_r in Hw. split; assumption.
  - split; [symmetry; exact Htasks|]. eexists. repeat split; reflexivity.
  - split; [symmetry; exact Hlaunch|]. eexists. repeat split; reflexivity.
Qed.

End CommandProperties.

(** The scaffold in an empty workspace folder picked by the user. *)
Lemma createFunctionApp_scaffold_witness :
  writes (calls
    (createFunctionApp (Some ["/work"]) pick_work (Rejected tt) init_nothing
       (fun _ _ => Fulfilled tt) empty_editor).2)
  = [ (path_join "/work" [".vscode"; "tasks.json"], tasks_json_text);
      (path_join "/work" [".vscode"; "launch.json"], launch_json_text) ].
Proof.
  destruct (createFunctionApp_scaffold unit (Some ["/work"]) pick_work (Rejected tt)
              init_nothing (fun _ _ => Fulfilled tt) empty_editor "/work" eq_refl)
    as [Habsent _].
  destruct Habsent as [Hw _]; [split; reflexivity | reflexivity | exact Hw].
Defined.

(** Neither scaffold file exists beforehand, the command-line tool
    fails, and nothing is written: absence of the two files alone does
    not make [createFunctionApp] write them. *)
Lemma createFunctionApp_scaffold_counterexample :
  let ed' := (createFunctionApp (Some ["/work"]) pick_work (Rejected tt) init_fails
                (fun _ _ => Fulfilled tt) empty_editor).2 in
  answered_path (Some ["/work"]) pick_work (Rejected tt) = Fulfilled "/work"
  /\ files empty_editor !! path_join "/work" [".vscode"; "tasks.json"] = None
  /\ files empty_editor !! path_join "/work" [".vscode"; "launch.json"] = None
  /\ writes (calls ed') = []
  /\ files ed' !! path_join "/work" [".vscode"; "tasks.json"] = None
  /\ files ed' !! path_join "/work" [".vscode"; "launch.json"] = None.
Proof. repeat split. Qed.

(** ** The deployment check *)

Lemma count_app (p : Event -> bool) (t u : list Event) :
  count p (t ++ u) = count p t + count p u.
Proof. unfold count. rewrite List.filter_app, length_app. reflexivity. Qed.

Lemma loop_events_S (retries : nat) (inputs : list Input) (a m : nat) :
  loop_events retries inputs a (Datatypes.S m)
  = (attempt_events retries inputs a ++ loop_events retries inputs (Datatypes.S a) m)%list.
Proof. reflexivity. Qed.

Lemma count_run_attempt (retries : nat) (inputs : list Input) (j : nat) :
  count is_run (attempt_events retries inputs j) = 1.
Proof. unfold attempt_events. destruct (Nat.eqb j 1); reflexivity. Qed.

Lemma count_refresh_attempt (retries : nat) (inputs : list Input) (j : nat) :
  count is_refresh (attempt_events retries inputs j) = if Nat.eqb j 1 then 0 else 1.
Proof. unfold attempt_events. destruct (Nat.eqb j 1); reflexivity. Qed.

Lemma count_read_attempt (retries : nat) (inputs : list Input) (j : nat) :
  count is_read (attempt_events retries inputs j) = 0.
Proof. unfold attempt_events. destruct (Nat.eqb j 1); reflexivity. Qed.

Lemma count_request_attempt (retries : nat) (inputs : list Input) (j : nat) :
  count is_request (attempt_events retries inputs j) = 0.
Proof. unfold attempt_events. destruct (Nat.eqb j 1); reflexivity. Qed.

(** Every attempt runs the command once. *)
Lemma count_run_loop (retries : nat) (inputs : list Input) (a m : nat) :
  count is_run (loop_events retries inputs a m) = m.
Proof.
  revert a. induction m as [|m IH]; intros a; [reflexivity|].
  rewrite loop_events_S, count_app, count_run_attempt, IH. reflexivity.
Qed.

Lemma count_read_loop (retries : nat) (inputs : list Input) (a m : nat) :
  count is_read (loop_events retries inputs a m) = 0.
Proof.
  revert a. induction m as [|m IH]; intros a; [reflexivity|].
  rewrite loop_events_S, count_app, count_read_attempt, IH. reflexivity.
Qed.

Lemma count_request_loop (retries : nat) (inputs : list Input) (a m : nat) :
  count is_request (loop_events retries inputs a m) = 0.
Proof.
  revert a. induction m as [|m IH]; intros a; [reflexivity|].
  rewrite loop_events_S, count_app, count_request_attempt, IH. reflexivity.
Qed.

(** Attempts numbered from 2 on refresh the tree once each. *)
Lemma count_refresh_later (retries : nat) (inputs : list Input) (a m : nat) :
  2 <= a -> count is_refresh (loop_events retries inputs a m) = m.
Proof.
  revert a. induction m as [|m IH]; intros a Ha; [reflexivity|].
  rewrite loop_events_S, count_app, count_refresh_attempt, IH by lia.
  destruct (Nat.eqb_spec a 1); [lia | reflexivity].
Qed.

(** A loop that starts at attempt 1 refreshes once less than it attempts. *)
Lemma count_refresh_loop (retries : nat) (inputs : list Input) (m : nat) :
  count is_refresh (loop_events retries inputs 1 m) = m - 1.
Proof.
  destruct m as [|m]; [reflexivity|].
  rewrite loop_events_S, count_app, count_refresh_attempt, count_refresh_later by lia.
  simpl. lia.
Qed.

Lemma in_loop_events (retries : nat) (inputs : list Input) (a m : nat) (e : Event) :
  In e (loop_events retries inputs a m)
  <-> exists j, a <= j < a + m /\ In e (attempt_events retries inputs j).
Proof.
  unfold loop_events. rewrite in_concat. split.
  - intros (l & Hl & He). apply in_map_iff in Hl as (j & <- & Hj).
    apply in_seq in Hj. exists j. split; [lia | exact He].
  - intros (j & Hj & He). exists (attempt_events retries inputs j). split; [|exact He].
    apply in_map_iff. exists j. split; [reflexivity|]. apply in_seq. lia.
Qed.

Section DeployProperties.

Variable Err : Type.
Variable parseError_message : Err -> string.
Variable ui : nat -> list Input -> CommandOutcome Err.
Variable http : Request -> Completion Err string.

Variable N : nat.
Variables appName functionName : string.
Variable projectLanguage : ProjectLanguage.

Let inputs : list Input := copy_inputs appName functionName projectLanguage.
Let options : Options := {| retries := N; minTimeout := 5 * 1000 |}.
Let input : nat -> Async World (Thrown Err) unit :=
  attempt parseError_message ui N appName functionName projectLanguage.

(** [copyFunctionUrl] clears the clipboard and then runs the command. *)
Lemma copyFunctionUrl_run (w : World) :
  copyFunctionUrl ui appName functionName projectLanguage w
  = runWithInputs ui inputs "azureFunctions.copyFunctionUrl"
      {| clipboard := EmptyString;
         executions := executions w;
         trace := (trace w ++ [ClipboardWrite EmptyString])%list |}.
Proof. reflexivity. Qed.

(** One attempt, as the outcome of the command decides it. *)
Lemma attempt_run (j : nat) (w : World) :
  input j w
  = (attempt_result parseError_message functionName (ui (executions w) inputs),
     attempt_world N inputs j (ui (executions w) inputs) w).
Proof.
  unfold input, attempt, appendLog, tree_refresh, try_catch, await, effect, resolve,
    copyFunctionUrl, clipboard_writeText, await, effect.
  fold inputs.
  unfold runWithInputs, attempt_result, attempt_world, clipboard_after, attempt_events,
    on_error, retryable, throw, log_event.
  destruct (Nat.eqb j 1); simpl;
    destruct (thrown (ui (executions w) inputs)) as [error|];
    destruct (copied (ui (executions w) inputs));
    try destruct (includes (parseError_message error) "inputs"
                  && includes (parseError_message error) functionName);
    simpl; rewrite <- ?app_assoc; reflexivity.
Qed.

Lemma outcome_of_attempt_next (j : nat) (o : CommandOutcome Err) (w : World) (i : nat) :
  1 <= i ->
  outcome_of_attempt ui inputs (attempt_world N inputs j o w) i
  = outcome_of_attempt ui inputs w (Datatypes.S i).
Proof.
  intros Hi. unfold outcome_of_attempt, attempt_world. simpl. f_equal. lia.
Qed.

Lemma outcome_of_first_attempt (w : World) :
  outcome_of_attempt ui inputs w 1 = ui (executions w) inputs.
Proof. unfold outcome_of_attempt. f_equal. simpl. lia. Qed.

(** The loop, when it is known to end on attempt [m]: its result is
    decided by the outcome of that attempt, and its events are those of
    [m] attempts. *)
Lemma retry_from_ends_on (remaining a : nat) (w : World) (m : nat) :
  ends_on parseError_message ui functionName inputs w remaining m ->
  retry_from input remaining a w
  = (loop_result parseError_message functionName (outcome_of_attempt ui inputs w m),
     {| clipboard := clipboard_after (outcome_of_attempt ui inputs w m);
        executions := executions w + m;
        trace := (trace w ++ loop_events N inputs a m)%list |}).
Proof.
  revert a w m. induction remaining as [|remaining IH]; intros a w m (Hm & Hbefore & Hlast).
  - assert (m = 1) as -> by lia.
    simpl. rewrite attempt_run, outcome_of_first_attempt.
    unfold attempt_result, loop_result, attempt_world, loop_events. simpl.
    rewrite app_nil_r, Nat.add_1_r.
    destruct (thrown (ui (executions w) inputs)) as [error|]; [|reflexivity].
    destruct (retryable parseError_message functionName error); reflexivity.
  - simpl. rewrite attempt_run.
    destruct (retryable_failure parseError_message functionName (ui (executions w) inputs))
      eqn:Hfirst.
    + (* the first attempt is retried *)
      assert (2 <= m) as Hm2.
      { destruct Hlast as [-> | Hlast]; [lia|].
        destruct (Nat.eq_dec m 1) as [-> | ?]; [|lia].
        rewrite outcome_of_first_attempt in Hlast. congruence. }
      unfold retryable_failure in Hfirst. unfold attempt_result at 1.
      destruct (thrown (ui (executions w) inputs)) as [error|] eqn:Hthrown; [|discriminate].
      rewrite Hfirst.
      rewrite (IH (Datatypes.S a) _ (m - 1)).
      * rewrite outcome_of_attempt_next by lia.
        replace (Datatypes.S (m - 1)) with m by lia.
        f_equal. unfold attempt_world. simpl. f_equal; [lia|].
        replace m with (Datatypes.S (m - 1)) at 2 by lia.
        rewrite loop_events_S, <- app_assoc. reflexivity.
      * split; [lia|]. split.
        -- intros j Hj. rewrite outcome_of_attempt_next by lia. apply Hbefore. lia.
        -- rewrite outcome_of_attempt_next by lia.
           replace (Datatypes.S (m - 1)) with m by lia.
           destruct Hlast as [-> | Hlast]; [left; lia | right; exact Hlast].
    + (* the loop ends on the first attempt *)
      assert (m = 1) as ->.
      { destruct (Nat.eq_dec m 1) as [-> | ?]; [reflexivity|].
        assert (retryable_failure parseError_message functionName
                  (outcome_of_attempt ui inputs w 1) = true) as H by (apply Hbefore; lia).
        rewrite outcome_of_first_attempt in H. congruence. }
      rewrite outcome_of_first_attempt.
      unfold retryable_failure in Hfirst.
      unfold attempt_result, loop_result, attempt_world, loop_events. simpl.
      rewrite app_nil_r, Nat.add_1_r.
      destruct (thrown (ui (executions w) inputs)) as [error|]; [|reflexivity].
      rewrite Hfirst. reflexivity.
Qed.

(** The loop always ends on some attempt within its budget. *)
Lemma ends_on_exists (remaining : nat) (w : World) :
  exists m, ends_on parseError_message ui functionName inputs w remaining m.
Proof.
  revert w. induction remaining as [|remaining IH]; intros w.
  - exists 1. split; [lia|]. split; [intros j Hj; lia | left; reflexivity].
  - destruct (retryable_failure parseError_message functionName
                (outcome_of_attempt ui inputs w 1)) eqn:Hfirst.
    + destruct (IH (attempt_world N inputs 1 (ui (executions w) inputs) w))
        as (m & Hm & Hbefore & Hlast).
      exists (Datatypes.S m). split; [lia|]. split.
      * intros j Hj. destruct (Nat.eq_dec j 1) as [-> | Hne]; [exact Hfirst|].
        replace j with (Datatypes.S (j - 1)) by lia.
        rewrite <- (outcome_of_attempt_next 1 (ui (executions w) inputs)) by lia.
        apply Hbefore. lia.
      * rewrite <- (outcome_of_attempt_next 1 (ui (executions w) inputs)) by lia.
        destruct Hlast as [-> | Hlast]; [left; lia | right; exact Hlast].
    + exists 1. split; [lia|]. split; [intros j Hj; lia | right; exact Hfirst].
Qed.

(** The whole check: the loop, and after its success the final check. *)
Lemma validateFunctionUrl_run (w : World) :
  validateFunctionUrl_with parseError_message ui http N
    appName functionName projectLanguage w
  = match retry input options w with
    | (Fulfilled _, w1) =>
        (check_result (http (check_request (clipboard w1))), check_world w1)
    | (Rejected f, w1) => (Rejected f, w1)
    end.
Proof.
  unfold validateFunctionUrl_with, await. fold input. fold options.
  destruct (retry input options w) as [[[]|f] w1]; [|reflexivity].
  unfold clipboard_readText, getDefaultRequest, resolve, sendRequest, check_result,
    check_world, check_request, assert_ok, log_event, throw. simpl.
  rewrite <- app_assoc. simpl.
  destruct (http _) as [response|error]; [|reflexivity].
  destruct (includes response "Hello" && includes response "World"); reflexivity.
Qed.

(** The whole check, when the loop is known to end on attempt [m]. *)
Lemma validateFunctionUrl_ends_on (w : World) (m : nat) :
  ends_on parseError_message ui functionName inputs w N m ->
  let w1 :=
    {| clipboard := clipboard_after (outcome_of_attempt ui inputs w m);
       executions := executions w + m;
       trace := (trace w ++ loop_events N inputs 1 m)%list |} in
  retry input options w
  = (loop_result parseError_message functionName (outcome_of_attempt ui inputs w m), w1)
  /\ validateFunctionUrl_with parseError_message ui http N
       appName functionName projectLanguage w
     = match loop_result parseError_message functionName
               (outcome_of_attempt ui inputs w m) with
       | Fulfilled _ =>
           (check_result (http (check_request (clipboard w1))), check_world w1)
       | Rejected f => (Rejected f, w1)
       end.
Proof.
  intros Hm w1.
  assert (retry input options w
          = (loop_result parseError_message functionName
               (outcome_of_attempt ui inputs w m), w1)) as Hloop.
  { unfold retry. simpl. apply retry_from_ends_on. exact Hm. }
  split; [exact Hloop|].
  rewrite validateFunctionUrl_run, Hloop.
  destruct (loop_result _ _ _) as [[]|f]; reflexivity.
Qed.

Lemma in_attempt_events_log (j : nat) (message : string) :
  In (AppendLog message) (attempt_events N inputs j) -> message = attempt_message j N.
Proof.
  unfold attempt_events. destruct (Nat.eqb j 1); simpl; intros H;
    repeat (destruct H as [H | H]; [congruence|]); destruct H.
Qed.

Lemma in_attempt_events_write (j : nat) (text : string) :
  In (ClipboardWrite text) (attempt_events N inputs j) -> text = EmptyString.
Proof.
  unfold attempt_events. destruct (Nat.eqb j 1); simpl; intros H;
    repeat (destruct H as [H | H]; [congruence|]); destruct H.
Qed.

Lemma loop_result_not_succeeds (o : CommandOutcome Err) :
  succeeds o = false -> exists f, loop_result parseError_message functionName o = Rejected f.
Proof.
  unfold succeeds, loop_result. destruct (thrown o) as [error|]; [|discriminate].
  intros _. destruct (retryable parseError_message functionName error); eauto.
Qed.

(** C1. For every retry count [N] (4 in [validateFunctionUrl]), the
    check makes [m] attempts with [1 <= m <= N + 1]: its events are those
    of attempts 1 to [m] followed by the events of the final check, the
    command runs [m] times, every attempt number it logs lies between 1
    and [N + 1], and when each of the [N + 1] attempts throws, the check
    is rejected. *)
Theorem attempts_within_budget (w : World) :
  validateFunctionUrl parseError_message ui http appName functionName projectLanguage w
  = validateFunctionUrl_with parseError_message ui http 4
      appName functionName projectLanguage w
  /\ exists m rest,
       1 <= m <= N + 1
       /\ trace (validateFunctionUrl_with parseError_message ui http N
                   appName functionName projectLanguage w).2
          = (trace w ++ loop_events N inputs 1 m ++ rest)%list
       /\ count is_run (loop_events N inputs 1 m ++ rest) = m
       /\ executions (validateFunctionUrl_with parseError_message ui http N
                        appName functionName projectLanguage w).2
          = executions w + m
       /\ (forall message,
             In (AppendLog message) (loop_events N inputs 1 m ++ rest) ->
             exists j, 1 <= j <= N + 1 /\ message = attempt_message j N)
       /\ ((forall j, 1 <= j <= N + 1 ->
              succeeds (outcome_of_attempt ui inputs w j) = false) ->
           exists f,
             (validateFunctionUrl_with parseError_message ui http N
                appName functionName projectLanguage w).1 = Rejected f).
Proof.
  split; [reflexivity|].
  destruct (ends_on_exists N w) as [m Hm].
  destruct (validateFunctionUrl_ends_on w m Hm) as [_ Hrun].
  destruct Hm as (Hm & _ & _).
  rewrite Hrun. clear Hrun.
  assert (forall message,
            In (AppendLog message) (loop_events N inputs 1 m) ->
            exists j, 1 <= j <= N + 1 /\ message = attempt_message j N) as Hlog.
  { intros message Hin. apply in_loop_events in Hin as (j & Hj & Hin).
    exists j. split; [lia|]. apply in_attempt_events_log. exact Hin. }
  destruct (loop_result parseError_message functionName (outcome_of_attempt ui inputs w m))
    as [[]|f] eqn:Hres.
  - exists m, [ClipboardRead;
               SendRequest (check_request (clipboard_after (outcome_of_attempt ui inputs w m)))].
    split; [exact Hm|]. split.
    { unfold check_world. simpl. rewrite <- app_assoc. reflexivity. }
    split.
    { rewrite count_app, count_run_loop. unfold count. simpl. lia. }
    split; [reflexivity|]. split.
    + intros message Hin. apply in_app_or in Hin as [Hin | Hin]; [auto|].
      simpl in Hin. destruct Hin as [Hin | [Hin | []]]; discriminate.
    + intros Hall. destruct (loop_result_not_succeeds _ (Hall m Hm)) as [f Hf].
      congruence.
  - exists m, []. split; [exact Hm|]. split.
    { simpl. rewrite app_nil_r. reflexivity. }
    split.
    { rewrite app_nil_r. apply count_run_loop. }
    split; [reflexivity|]. split.
    + intros message Hin. rewrite app_nil_r in Hin. auto.
    + intros _. exists f. reflexivity.
Qed.

Lemma retryable_failure_not_succeeds (o : CommandOutcome Err) :
  succeeds o = true -> retryable_failure parseError_message functionName o = false.
Proof.
  unfold succeeds, retryable_failure. destruct (thrown o); [discriminate | reflexivity].
Qed.

(** C2. When attempts 1 to [k] (with [k <= N]) each throw a retryable
    error and attempt [k + 1] throws nothing, the loop is fulfilled after
    exactly [k + 1] attempts and [k] refreshes of the tree: the events of
    attempt 1 hold no refresh, those of every later attempt hold one
    before the clipboard is cleared and the command runs.  The check
    then goes on to its final request. *)
Theorem succeeds_after_retries (w : World) (k : nat) :
  k <= N ->
  (forall j, 1 <= j <= k ->
     retryable_failure parseError_message functionName
       (outcome_of_attempt ui inputs w j) = true) ->
  succeeds (outcome_of_attempt ui inputs w (k + 1)) = true ->
  (retry input options w).1 = Fulfilled tt
  /\ trace (retry input options w).2 = (trace w ++ loop_events N inputs 1 (k + 1))%list
  /\ executions (retry input options w).2 = executions w + (k + 1)
  /\ count is_run (loop_events N inputs 1 (k + 1)) = k + 1
  /\ count is_refresh (loop_events N inputs 1 (k + 1)) = k
  /\ attempt_events N inputs 1
     = [AppendLog (attempt_message 1 N); ClipboardWrite EmptyString;
        RunWithInputs inputs "azureFunctions.copyFunctionUrl"]
  /\ (forall j, j <> 1 ->
        attempt_events N inputs j
        = [AppendLog (attempt_message j N); TreeRefresh; ClipboardWrite EmptyString;
           RunWithInputs inputs "azureFunctions.copyFunctionUrl"])
  /\ trace (validateFunctionUrl_with parseError_message ui http N
              appName functionName projectLanguage w).2
     = (trace w ++ loop_events N inputs 1 (k + 1)
        ++ [ClipboardRead;
            SendRequest (check_request
                           (clipboard_after (outcome_of_attempt ui inputs w (k + 1))))])%list.
Proof.
  intros Hk Hfail Hok.
  assert (ends_on parseError_message ui functionName inputs w N (k + 1)) as Hends.
  { split; [lia|]. split.
    - intros j Hj. apply Hfail. lia.
    - right. apply retryable_failure_not_succeeds. exact Hok. }
  destruct (validateFunctionUrl_ends_on w (k + 1) Hends) as [Hloop Hrun].
  assert (loop_result parseError_message functionName
            (outcome_of_attempt ui inputs w (k + 1)) = Fulfilled tt) as Hres.
  { unfold loop_result. unfold succeeds in Hok.
    destruct (thrown (outcome_of_attempt ui inputs w (k + 1))); [discriminate | reflexivity]. }
  rewrite Hres in Hloop, Hrun. rewrite Hloop, Hrun. simpl.
  repeat split.
  - apply count_run_loop.
  - rewrite count_refresh_loop. lia.
  - intros j Hj. unfold attempt_events.
    destruct (Nat.eqb_spec j 1); [contradiction | reflexivity].
  - rewrite <- app_assoc. reflexivity.
Qed.

(** C3. The error caught in an attempt is thrown again, and so retried,
    exactly when its message contains [inputs] and contains the function
    name; every other error becomes an [AbortError] with the message.  In
    the loop, an attempt whose error is not retryable ends the loop at
    once, rejected with an error of that message, whatever budget
    remains; a retryable one leads to the next attempt when budget
    remains. *)
Theorem retry_classification (error : Err) (w : World) :
  ((on_error parseError_message functionName error w).1 = Rejected (Again error)
   <-> (exists before after, parseError_message error = before ++ "inputs" ++ after)
       /\ (exists before after, parseError_message error = before ++ functionName ++ after))
  /\ ((on_error parseError_message functionName error w).1 = Rejected (Again error)
      \/ (on_error parseError_message functionName error w).1
         = Rejected (AbortError (parseError_message error)))
  /\ (on_error parseError_message functionName error w).2 = w
  /\ (forall remaining a,
        thrown (ui (executions w) inputs) = Some error ->
        retryable parseError_message functionName error = false ->
        retry_from input remaining a w
        = (Rejected (NewError (parseError_message error)),
           attempt_world N inputs a (ui (executions w) inputs) w))
  /\ (forall remaining a,
        thrown (ui (executions w) inputs) = Some error ->
        retryable parseError_message functionName error = true ->
        retry_from input (Datatypes.S remaining) a w
        = retry_from input remaining (Datatypes.S a)
            (attempt_world N inputs a (ui (executions w) inputs) w)).
Proof.
  split; [|split; [|split; [|split]]].
  - rewrite <- !includes_iff. unfold on_error, throw.
    destruct (includes (parseError_message error) "inputs");
      destruct (includes (parseError_message error) functionName);
      simpl; (split; [intros H; try discriminate H; auto | intros [H1 H2]; congruence]).
  - unfold on_error, throw.
    destruct (includes (parseError_message error) "inputs"
              && includes (parseError_message error) functionName); simpl; auto.
  - unfold on_error, throw.
    destruct (includes (parseError_message error) "inputs"
              && includes (parseError_message error) functionName); reflexivity.
  - intros remaining a Hthrown Hnot.
    destruct remaining; simpl; rewrite attempt_run; unfold attempt_result;
      rewrite Hthrown, Hnot; reflexivity.
  - intros remaining a Hthrown Hyes.
    simpl. rewrite attempt_run. unfold attempt_result at 1.
    rewrite Hthrown, Hyes. reflexivity.
Qed.

(** C4. When attempts 1 to [k - 1] throw retryable errors and attempt
    [k] (within the budget) throws an error that is not retryable, the
    check is rejected on that attempt with a new error that carries the
    message read from the error: the command has run [k] times and no
    more, the tree was refreshed [k - 1] times (not at all when [k] is
    1), and neither the clipboard is read nor a request sent. *)
Theorem non_retryable_aborts (w : World) (k : nat) (error : Err) :
  1 <= k <= N + 1 ->
  (forall j, 1 <= j < k ->
     retryable_failure parseError_message functionName
       (outcome_of_attempt ui inputs w j) = true) ->
  thrown (outcome_of_attempt ui inputs w k) = Some error ->
  retryable parseError_message functionName error = false ->
  (validateFunctionUrl_with parseError_message ui http N
     appName functionName projectLanguage w).1
  = Rejected (NewError (parseError_message error))
  /\ trace (validateFunctionUrl_with parseError_message ui http N
              appName functionName projectLanguage w).2
     = (trace w ++ loop_events N inputs 1 k)%list
  /\ executions (validateFunctionUrl_with parseError_message ui http N
                   appName functionName projectLanguage w).2
     = executions w + k
  /\ count is_run (loop_events N inputs 1 k) = k
  /\ count is_refresh (loop_events N inputs 1 k) = k - 1
  /\ (k = 1 -> count is_refresh (loop_events N inputs 1 k) = 0)
  /\ count is_read (loop_events N inputs 1 k) = 0
  /\ count is_request (loop_events N inputs 1 k) = 0.
Proof.
  intros Hk Hfail Hthrown Hnot.
  assert (ends_on parseError_message ui functionName inputs w N k) as Hends.
  { split; [lia|]. split; [exact Hfail|].
    right. unfold retryable_failure. rewrite Hthrown. exact Hnot. }
  destruct (validateFunctionUrl_ends_on w k Hends) as [_ Hrun].
  unfold loop_result in Hrun. rewrite Hthrown, Hnot in Hrun. rewrite Hrun. simpl.
  repeat split.
  - apply count_run_loop.
  - apply count_refresh_loop.
  - intros ->. reflexivity.
  - apply count_read_loop.
  - apply count_request_loop.
Qed.

(** C5. When each of the [N + 1] attempts throws a retryable error, the
    check is rejected with the very error the last attempt threw, after
    [N + 1] attempts. *)
Theorem exhausted_surfaces_last_error (w : World) (error : Err) :
  (forall j, 1 <= j <= N + 1 ->
     retryable_failure parseError_message functionName
       (outcome_of_attempt ui inputs w j) = true) ->
  thrown (outcome_of_attempt ui inputs w (N + 1)) = Some error ->
  (validateFunctionUrl_with parseError_message ui http N
     appName functionName projectLanguage w).1
  = Rejected (Raised error)
  /\ trace (validateFunctionUrl_with parseError_message ui http N
              appName functionName projectLanguage w).2
     = (trace w ++ loop_events N inputs 1 (N + 1))%list
  /\ executions (validateFunctionUrl_with parseError_message ui http N
                   appName functionName projectLanguage w).2
     = executions w + (N + 1).
Proof.
  intros Hall Hthrown.
  assert (ends_on parseError_message ui functionName inputs w N (N + 1)) as Hends.
  { split; [lia|]. split; [|left; reflexivity]. intros j Hj. apply Hall. lia. }
  destruct (validateFunctionUrl_ends_on w (N + 1) Hends) as [_ Hrun].
  assert (retryable parseError_message functionName error = true) as Hyes.
  { specialize (Hall (N + 1)). unfold retryable_failure in Hall.
    rewrite Hthrown in Hall. apply Hall. lia. }
  unfold loop_result in Hrun. rewrite Hthrown, Hyes in Hrun. rewrite Hrun.
  repeat split.
Qed.

(** C6. After the loop succeeded, the check reads the url from the
    clipboard and sends one request to it, with the body [{name: World}]
    and the JSON flag set; this adds exactly one request to the events
    and no further run of the command.  The check is fulfilled exactly
    when the request is answered with a body that contains [Hello] and
    contains [World]; a body with [Hello] and without [World] rejects it
    with the assertion error. *)
Theorem final_check (w : World) :
  (retry input options w).1 = Fulfilled tt ->
  let w1 := (retry input options w).2 in
  let request := check_request (clipboard w1) in
  let run := validateFunctionUrl_with parseError_message ui http N
               appName functionName projectLanguage w in
  trace run.2 = (trace w1 ++ [ClipboardRead; SendRequest request])%list
  /\ url request = clipboard w1
  /\ body request = Some (JObject [("name", JString "World")])
  /\ json request = true
  /\ count is_request (trace run.2) = count is_request (trace w) + 1
  /\ count is_run (trace run.2) = count is_run (trace w1)
  /\ executions run.2 = executions w1
  /\ (run.1 = Fulfilled tt
      <-> exists response,
            http request = Fulfilled response
            /\ (exists before after, response = before ++ "Hello" ++ after)
            /\ (exists before after, response = before ++ "World" ++ after))
  /\ (forall response,
        http request = Fulfilled response ->
        includes response "Hello" = true ->
        includes response "World" = false ->
        run.1 = Rejected (AssertionError expected_message)).
Proof.
  intros Hok w1 request run.
  destruct (ends_on_exists N w) as [m Hm].
  destruct (validateFunctionUrl_ends_on w m Hm) as [Hloop Hrun].
  assert (loop_result parseError_message functionName
            (outcome_of_attempt ui inputs w m) = Fulfilled tt) as Hres.
  { rewrite Hloop in Hok. exact Hok. }
  rewrite Hres in Hloop, Hrun.
  subst run request w1. rewrite Hrun, Hloop. clear Hrun Hloop Hok.
  cbn [fst snd check_world trace executions clipboard].
  split; [reflexivity|]. split; [reflexivity|]. split; [reflexivity|].
  split; [reflexivity|]. split.
  { rewrite !count_app, count_request_loop. unfold count. simpl. lia. }
  split.
  { rewrite !count_app. unfold count at 3. simpl. lia. }
  split; [reflexivity|]. split.
  - unfold check_result.
    destruct (http _) as [response|error].
    + destruct (includes response "Hello") eqn:Hhello;
        destruct (includes response "World") eqn:Hworld; cbn [andb].
      * split; [intros _ | reflexivity].
        exists response. split; [reflexivity|].
        split; apply includes_iff; assumption.
      * split; [discriminate|]. intros (r & Hr & _ & Hw).
        injection Hr as <-. apply includes_iff in Hw. congruence.
      * split; [discriminate|]. intros (r & Hr & Hh & _).
        injection Hr as <-. apply includes_iff in Hh. congruence.
      * split; [discriminate|]. intros (r & Hr & Hh & _).
        injection Hr as <-. apply includes_iff in Hh. congruence.
    + split; [discriminate|]. intros (r & Hr & _). discriminate.
  - intros response Hanswer Hhello Hworld.
    unfold check_result. rewrite Hanswer, Hhello, Hworld. reflexivity.
Qed.

(** C8. [copyFunctionUrl] sets the clipboard to the empty string before
    the command runs, in every attempt; a refresh of the tree leaves the
    clipboard as it is; every write to the clipboard among the events of
    the loop writes the empty string, so that the clipboard after the
    loop holds what the command of the last attempt copied, if anything;
    and the clipboard is read once when the loop succeeded and not at all
    when it failed. *)
Theorem clipboard_discipline (w : World) :
  (forall w0,
     copyFunctionUrl ui appName functionName projectLanguage w0
     = runWithInputs ui inputs "azureFunctions.copyFunctionUrl"
         {| clipboard := EmptyString;
            executions := executions w0;
            trace := (trace w0 ++ [ClipboardWrite EmptyString])%list |})
  /\ (forall w0, clipboard (tree_refresh (E := Err) w0).2 = clipboard w0)
  /\ exists m,
       1 <= m <= N + 1
       /\ trace (retry input options w).2 = (trace w ++ loop_events N inputs 1 m)%list
       /\ (forall text,
             In (ClipboardWrite text) (loop_events N inputs 1 m) -> text = EmptyString)
       /\ (forall j, 1 <= j ->
             exists before,
               attempt_events N inputs j
               = (before ++ [ClipboardWrite EmptyString;
                             RunWithInputs inputs "azureFunctions.copyFunctionUrl"])%list
               /\ count is_run before = 0)
       /\ clipboard (retry input options w).2
          = clipboard_after (outcome_of_attempt ui inputs w m)
       /\ count is_read (loop_events N inputs 1 m) = 0
       /\ ((retry input options w).1 = Fulfilled tt ->
           exists request,
             trace (validateFunctionUrl_with parseError_message ui http N
                      appName functionName projectLanguage w).2
             = (trace w ++ loop_events N inputs 1 m ++ [ClipboardRead; SendRequest request])%list
             /\ count is_read (loop_events N inputs 1 m ++ [ClipboardRead; SendRequest request]) = 1)
       /\ (forall f,
             (retry input options w).1 = Rejected f ->
             validateFunctionUrl_with parseError_message ui http N
               appName functionName projectLanguage w
             = retry input options w).
Proof.
  split; [intros w0; apply copyFunctionUrl_run|].
  split; [reflexivity|].
  destruct (ends_on_exists N w) as [m Hm].
  destruct (validateFunctionUrl_ends_on w m Hm) as [Hloop Hrun].
  exists m. rewrite Hrun, Hloop. clear Hrun.
  cbn [fst snd trace clipboard].
  split; [apply Hm|]. split; [reflexivity|]. split.
  { intros text Hin. apply in_loop_events in Hin as (j & _ & Hin).
    apply (in_attempt_events_write j). exact Hin. }
  split.
  { intros j Hj. unfold attempt_events. destruct (Nat.eqb j 1).
    - exists [AppendLog (attempt_message j N)]. split; reflexivity.
    - exists [AppendLog (attempt_message j N); TreeRefresh]. split; reflexivity. }
  split; [reflexivity|]. split; [apply count_read_loop|]. split.
  - intros Hok. rewrite Hok.
    eexists. split.
    + unfold check_world. cbn [trace]. rewrite <- app_assoc. reflexivity.
    + rewrite count_app, count_read_loop. reflexivity.
  - intros f Hf. rewrite Hf. reflexivity.
Qed.

End DeployProperties.

(** ** The scenarios of the specification *)

(** Three failures of the race, then success: four attempts, three
    refreshes, and the url in the clipboard. *)
Example scenario_race_then_url :
  let run := validateFunctionUrl message_of race_then_url greeting
               "appX" "funcAB12" JavaScript fresh_world in
  run.1 = Fulfilled tt
  /\ clipboard run.2 = "https://appX.azurewebsites.net/api/funcAB12"
  /\ count is_run (trace run.2) = 4
  /\ count is_refresh (trace run.2) = 3
  /\ count is_request (trace run.2) = 1.
Proof. repeat split. Qed.

(** A failure that does not name the function: one attempt, no refresh. *)
Example scenario_network_timeout :
  let run := validateFunctionUrl message_of network_timeout greeting
               "appX" "funcAB12" JavaScript fresh_world in
  run.1 = Rejected (NewError "network timeout")
  /\ count is_run (trace run.2) = 1
  /\ count is_refresh (trace run.2) = 0.
Proof. repeat split. Qed.

Example scenario_only_hello :
  check_result (Err := string) (Fulfilled "Hello") = Rejected (AssertionError expected_message)
  /\ check_result (Err := string) (Fulfilled "Hello World") = Fulfilled tt.
Proof. split; reflexivity. Qed.

(** The text of [launch.json]. *)
Example launchJson_text :
  JSON_stringify launchJson four_spaces
  = join newline
      [ "{";
        "    " ++ quote "version" ++ ": " ++ quote "0.2.0" ++ ",";
        "    " ++ quote "configurations" ++ ": [";
        "        {";
        "            " ++ quote "name" ++ ": " ++ quote "Attach to Azure Functions" ++ ",";
        "            " ++ quote "type" ++ ": " ++ quote "node" ++ ",";
        "            " ++ quote "request" ++ ": " ++ quote "attach" ++ ",";
        "            " ++ quote "port" ++ ": 5858,";
        "            " ++ quote "preLaunchTask" ++ ": " ++ quote "launchFunctionApp";
        "        }";
        "    ]";
        "}" ].
Proof. reflexivity. Qed.

(** ** The theorems at the scenarios *)

Lemma succeeds_after_retries_witness :
  (retry (attempt message_of race_then_url 4 "appX" "funcAB12" JavaScript)
     {| retries := 4; minTimeout := 5 * 1000 |} fresh_world).1 = Fulfilled tt
  /\ count is_refresh (loop_events 4 (copy_inputs "appX" "funcAB12" JavaScript) 1 (3 + 1)) = 3.
Proof.
  destruct (succeeds_after_retries string message_of race_then_url greeting 4
              "appX" "funcAB12" JavaScript fresh_world 3)
    as (Hok & _ & _ & _ & Hrefresh & _).
  - lia.
  - intros j Hj. unfold outcome_of_attempt, race_then_url. simpl.
    destruct (Nat.ltb_spec (j - 1) 3); [reflexivity | lia].
  - reflexivity.
  - split; assumption.
Defined.

Lemma non_retryable_aborts_witness :
  (validateFunctionUrl_with message_of network_timeout greeting 4
     "appX" "funcAB12" JavaScript fresh_world).1
  = Rejected (NewError "network timeout")
  /\ count is_refresh (loop_events 4 (copy_inputs "appX" "funcAB12" JavaScript) 1 1) = 0.
Proof.
  destruct (non_retryable_aborts string message_of network_timeout greeting 4
              "appX" "funcAB12" JavaScript fresh_world 1 "network timeout")
    as (Hres & _ & _ & _ & _ & Hzero & _).
  - lia.
  - intros j Hj. lia.
  - reflexivity.
  - reflexivity.
  - split; [exact Hres | apply Hzero; reflexivity].
Defined.

Lemma exhausted_surfaces_last_error_witness :
  (validateFunctionUrl_with message_of always_race greeting 4
     "appX" "funcAB12" JavaScript fresh_world).1
  = Rejected (Raised "Not all inputs were used: funcAB12 #4").
Proof.
  destruct (exhausted_surfaces_last_error string message_of always_race greeting 4
              "appX" "funcAB12" JavaScript fresh_world
              "Not all inputs were used: funcAB12 #4")
    as (Hres & _).
  - intros j Hj. reflexivity.
  - reflexivity.
  - exact Hres.
Defined.

Lemma final_check_witness :
  (validateFunctionUrl_with message_of race_then_url greeting 4
     "appX" "funcAB12" JavaScript fresh_world).1 = Fulfilled tt.
Proof.
  destruct (final_check string message_of race_then_url greeting 4
              "appX" "funcAB12" JavaScript fresh_world)
    as (_ & _ & _ & _ & _ & _ & _ & Hiff & _).
  - reflexivity.
  - apply Hiff. exists "Hello, World!". split; [reflexivity|]. split.
    + exists EmptyString, ", World!". reflexivity.
    + exists "Hello, ", "!". reflexivity.
Defined.

(** * Further properties of the command layer *)

Lemma string_app_assoc (a b c : string) : (a ++ b) ++ c = a ++ b ++ c.
Proof. induction a as [|x a IH]; simpl; [reflexivity | rewrite IH; reflexivity]. Qed.

(** The third expected file joined to a root is the path of
    [launch.json] that [createFunctionApp] uses. *)
Lemma expected_launch_path (rootPath : string) :
  path_join rootPath [path_join ".vscode" ["launch.json"]]
  = path_join rootPath [".vscode"; "launch.json"].
Proof.
  unfold path_join. simpl. rewrite !string_app_assoc. reflexivity.
Qed.

Lemma in_getMissingFunctionAppFiles (rootPath : string) (ed : Editor) (file : string) :
  In file (getMissingFunctionAppFiles rootPath ed)
  <-> In file _expectedFunctionAppFiles
      /\ files ed !! path_join rootPath [file] = None.
Proof.
  unfold getMissingFunctionAppFiles. rewrite filter_In.
  unfold fs_existsSync. destruct (files ed !! path_join rootPath [file]); simpl;
    split; intros [H1 H2]; split; auto; discriminate.
Qed.

(** The validator refuses the empty name before it looks at any file. *)
Lemma validateTemplateName_empty (rootPath name : string) (ed : Editor) :
  validateTemplateName rootPath name ed = None -> name <> EmptyString.
Proof. intros H ->. discriminate H. Qed.

(** X3. [openInPortal] opens a url exactly when the node is defined and
    its tenant id is defined and not empty, and then it opens one url,
    made of the tenant id and the id of the node; otherwise it opens
    nothing. *)
Theorem openInPortal_opens (node : option INode) (opened : list string) :
  ((exists n tenant,
      node = Some n /\ node_tenantId n = Some tenant /\ tenant <> EmptyString
      /\ openInPortal node opened
         = (opened ++ [("https://portal.azure.com/" ++ tenant ++ "/#resource"
                        ++ node_id n)%string])%list)
   \/ openInPortal node opened = opened)
  /\ (openInPortal node opened = opened
      <-> node = None
          \/ exists n, node = Some n
                       /\ (node_tenantId n = None \/ node_tenantId n = Some EmptyString)).
Proof.
  assert (forall (l : list string) x, (l ++ [x])%list <> l) as Hgrow.
  { intros l x H. apply (f_equal length) in H. rewrite length_app in H. simpl in H. lia. }
  destruct node as [[i [[|c t]|]]|]; simpl.
  - split; [right; reflexivity|]. split; [|reflexivity].
    intros _. right. eexists. split; [reflexivity|]. right. reflexivity.
  - split.
    + left. eexists _, _. repeat split. discriminate.
    + split.
      * intros H. apply Hgrow in H. destruct H.
      * intros [H | (n & Hn & [H | H])]; [discriminate | |];
          injection Hn as <-; discriminate.
  - split; [right; reflexivity|]. split; [|reflexivity].
    intros _. right. eexists. split; [reflexivity|]. left. reflexivity.
  - split; [right; reflexivity|]. split; [|reflexivity]. intros _. left. reflexivity.
Qed.

Section MoreCommandProperties.

Variable Err : Type.
Variable workspaceFolders : option (list string).
Variable showQuickPick :
  list QuickPickItemWithData -> string -> Completion Err QuickPickItemWithData.
Variable showFolderDialog : Completion Err string.
Variable func_init :
  string -> gmap string string -> Completion Err unit * gmap string string * list string.
Variable executeCommand : string -> string -> Completion Err unit.
Variable node_method : FunctionAppNode -> NodeMethod -> Completion Err unit.

#[local] Arguments path_join : simpl never.

(** X4. With a node, each of [startFunctionApp], [stopFunctionApp] and
    [restartFunctionApp] logs its first line, calls the method of the
    node once, and logs its second line only when the call succeeded; an
    error of the node is the error of the command, and the files are
    left alone. *)
Theorem node_command_logs (m : NodeMethod) (node : FunctionAppNode) (ed : Editor) :
  let run := node_command node_method m (Some node) ed in
  run.1 = match node_method node m with
          | Fulfilled _ => Fulfilled tt
          | Rejected e => Rejected e
          end
  /\ calls run.2 = (calls ed ++ [NodeCall node m])%list
  /\ files run.2 = files ed
  /\ channel run.2
     = (channel ed ++ progress_line m (node_label node)
        :: match node_method node m with
           | Fulfilled _ => [done_line m (node_label node)]
           | Rejected _ => []
           end)%list.
Proof.
  destruct m; unfold node_command, startFunctionApp, stopFunctionApp, restartFunctionApp,
    call_node, await, effect, settle, appendLine, record_call, progress_line, done_line;
    simpl; destruct (node_method node _) as [[]|e]; simpl;
    rewrite <- ?app_assoc; repeat split.
Qed.

(** X5. The calls of a complete [createFunctionApp], in order: the
    command-line tool for the path, then the two writes when neither
    scaffold file existed, then the command that opens the folder when
    the user picked the new folder item; the result is that of the last
    command. *)
Theorem createFunctionApp_calls (ed : Editor) (folder : QuickPickItemWithData)
    (path : string) :
  showQuickPick (folderPicks workspaceFolders)
    "Select a workspace folder for your new function app" = Fulfilled folder ->
  (if bool_decide (qp_data folder = Some newFolderId)
   then showFolderDialog else Fulfilled (qp_label folder)) = Fulfilled path ->
  (func_init path (files ed)).1.1 = Fulfilled tt ->
  let run := createFunctionApp workspaceFolders showQuickPick showFolderDialog
               func_init executeCommand ed in
  let newFolder := bool_decide (qp_data folder = Some newFolderId) in
  calls run.2
  = (calls ed
     ++ CliCreateFunctionApp path
        :: (if scaffold_absent path (files ed)
            then List.map (fun w => WriteToFile w.1 w.2) (scaffold path) else [])
        ++ (if newFolder then [ExecuteCommand "vscode.openFolder" path] else []))%list
  /\ run.1 = (if newFolder
              then match executeCommand "vscode.openFolder" path with
                   | Fulfilled _ => Fulfilled tt
                   | Rejected e => Rejected e
                   end
              else Fulfilled tt).
Proof.
  intros Hpick Hpath Hcli run newFolder. subst run newFolder.
  unfold createFunctionApp, await, settle, resolve.
  rewrite Hpick.
  destruct (bool_decide (qp_data folder = Some newFolderId)).
  - rewrite Hpath. rewrite existsSync_absent.
    unfold functionsCli_createFunctionApp.
    destruct (func_init path (files ed)) as [[c files'] lines] eqn:Hf.
    simpl in Hcli. subst c.
    unfold vscode_executeCommand, writeToFile, await, effect, settle, record_call.
    destruct (scaffold_absent path (files ed)); simpl;
      destruct (executeCommand "vscode.openFolder" path) as [[]|e]; simpl;
      rewrite <- ?app_assoc; split; reflexivity.
  - injection Hpath as Hpath. rewrite Hpath. rewrite existsSync_absent.
    unfold functionsCli_createFunctionApp.
    destruct (func_init path (files ed)) as [[c files'] lines] eqn:Hf.
    simpl in Hcli. subst c.
    unfold writeToFile, await, effect.
    destruct (scaffold_absent path (files ed)); simpl;
      rewrite <- ?app_assoc; rewrite ?app_nil_r; split; reflexivity.
Qed.

(** X6. When a prompt of [createFunctionApp] is rejected (the user
    cancels), the command is rejected with that error and the editor is
    untouched: no call, no file, no line.  When the command-line tool
    fails, the command is rejected with its error after that one call:
    nothing is written and no folder is opened. *)
Theorem createFunctionApp_stops (ed : Editor) :
  (forall e,
     answered_path workspaceFolders showQuickPick showFolderDialog = Rejected e ->
     createFunctionApp workspaceFolders showQuickPick showFolderDialog
       func_init executeCommand ed = (Rejected e, ed))
  /\ (forall path e,
        answered_path workspaceFolders showQuickPick showFolderDialog = Fulfilled path ->
        (func_init path (files ed)).1.1 = Rejected e ->
        let run := createFunctionApp workspaceFolders showQuickPick showFolderDialog
                     func_init executeCommand ed in
        run.1 = Rejected e
        /\ calls run.2 = (calls ed ++ [CliCreateFunctionApp path])%list
        /\ files run.2 = (func_init path (files ed)).1.2).
Proof.
  split.
  - intros e Hpath. unfold answered_path in Hpath.
    unfold createFunctionApp, await, settle, resolve.
    destruct (showQuickPick _ _) as [folder|e']; [|congruence].
    destruct (bool_decide (qp_data folder = Some newFolderId)); [|discriminate].
    rewrite Hpath. reflexivity.
  - intros path e Hpath Hcli. unfold answered_path in Hpath.
    unfold createFunctionApp, await, settle, resolve.
    destruct (showQuickPick _ _) as [folder|e']; [|discriminate].
    destruct (bool_decide (qp_data folder = Some newFolderId)).
    + rewrite Hpath. unfold functionsCli_createFunctionApp.
      destruct (func_init path (files ed)) as [[c files'] lines] eqn:Hf.
      simpl in Hcli. subst c. simpl. repeat split.
    + injection Hpath as Hpath. rewrite Hpath. unfold functionsCli_createFunctionApp.
      destruct (func_init path (files ed)) as [[c files'] lines] eqn:Hf.
      simpl in Hcli. subst c. simpl. repeat split.
Qed.

Lemma in_folderPicks (item : QuickPickItemWithData) :
  In item (folderPicks workspaceFolders)
  <-> item = newFolderItem
      \/ exists fs f,
           workspaceFolders = Some fs /\ In f fs
           /\ item = {| qp_label := f; qp_description := None; qp_data := None |}.
Proof.
  unfold folderPicks. destruct workspaceFolders as [fs|]; simpl.
  - rewrite in_map_iff. split.
    + intros [H | (f & Hf & Hin)]; [left; symmetry; exact H|].
      right. exists fs, f. repeat split; [exact Hin | symmetry; exact Hf].
    + intros [H | (fs' & f & Hfs & Hin & Hitem)]; [left; symmetry; exact H|].
      injection Hfs as <-. right. exists f. split; [symmetry; exact Hitem | exact Hin].
  - split.
    + intros [H | []]. left. symmetry. exact H.
    + intros [H | (fs' & f & Hfs & _)]; [left; symmetry; exact H | discriminate].
Qed.

(** The calls of [createFunctionApp] once the pick and the path are
    known, whether the command-line tool succeeds or not. *)
Lemma createFunctionApp_all_calls (ed : Editor) (folder : QuickPickItemWithData)
    (path : string) :
  showQuickPick (folderPicks workspaceFolders)
    "Select a workspace folder for your new function app" = Fulfilled folder ->
  (if bool_decide (qp_data folder = Some newFolderId)
   then showFolderDialog else Fulfilled (qp_label folder)) = Fulfilled path ->
  calls (createFunctionApp workspaceFolders showQuickPick showFolderDialog
           func_init executeCommand ed).2
  = (calls ed
     ++ CliCreateFunctionApp path
        :: match (func_init path (files ed)).1.1 with
           | Fulfilled _ =>
               (if scaffold_absent path (files ed)
                then List.map (fun w => WriteToFile w.1 w.2) (scaffold path) else [])
               ++ (if bool_decide (qp_data folder = Some newFolderId)
                   then [ExecuteCommand "vscode.openFolder" path] else [])
           | Rejected _ => []
           end)%list.
Proof.
  intros Hpick Hpath.
  unfold createFunctionApp, await, settle, resolve.
  rewrite Hpick.
  destruct (bool_decide (qp_data folder = Some newFolderId)).
  - rewrite Hpath. rewrite existsSync_absent.
    unfold functionsCli_createFunctionApp.
    destruct (func_init path (files ed)) as [[[[]|e] files'] lines] eqn:Hf.
    + unfold vscode_executeCommand, writeToFile, await, effect, settle, record_call.
      destruct (scaffold_absent path (files ed)); simpl;
        destruct (executeCommand "vscode.openFolder" path) as [[]|e]; simpl;
        rewrite <- ?app_assoc; reflexivity.
    + reflexivity.
  - injection Hpath as Hpath. rewrite Hpath. rewrite existsSync_absent.
    unfold functionsCli_createFunctionApp.
    destruct (func_init path (files ed)) as [[[[]|e] files'] lines] eqn:Hf.
    + unfold writeToFile, await, effect.
      destruct (scaffold_absent path (files ed)); simpl;
        rewrite <- ?app_assoc; rewrite ?app_nil_r; reflexivity.
    + reflexivity.
Qed.

(** X7. When the user picks one of the items [createFunctionApp]
    offers, the command decides on the data of the item, never on its
    label.  For the new folder item it asks the folder dialog: the
    command-line tool is called for the folder the dialog returns, the
    folder is opened once the tool succeeded, and a rejected dialog
    rejects the command with nothing done.  For every other offered item
    the tool is called for the workspace folder the item stands for, and
    no command of the editor is executed, even when that folder carries
    the label of the new folder item. *)
Theorem createFunctionApp_path_of_pick (ed : Editor) (item : QuickPickItemWithData) :
  showQuickPick (folderPicks workspaceFolders)
    "Select a workspace folder for your new function app" = Fulfilled item ->
  In item (folderPicks workspaceFolders) ->
  let run := createFunctionApp workspaceFolders showQuickPick showFolderDialog
               func_init executeCommand ed in
  (item = newFolderItem
   /\ match showFolderDialog with
      | Fulfilled path =>
          exists rest,
            calls run.2 = (calls ed ++ CliCreateFunctionApp path :: rest)%list
            /\ ((func_init path (files ed)).1.1 = Fulfilled tt ->
                In (ExecuteCommand "vscode.openFolder" path) rest)
      | Rejected e => run = (Rejected e, ed)
      end)
  \/ (qp_data item = None
      /\ (exists fs, workspaceFolders = Some fs /\ In (qp_label item) fs)
      /\ exists rest,
           calls run.2 = (calls ed ++ CliCreateFunctionApp (qp_label item) :: rest)%list
           /\ forall command arg, ~ In (ExecuteCommand command arg) rest).
Proof.
  intros Hpick Hin run.
  apply in_folderPicks in Hin as [-> | (fs & f & Hfs & Hf & ->)].
  - left. split; [reflexivity|].
    pose proof (fun path => createFunctionApp_all_calls ed newFolderItem path Hpick)
      as Hcalls.
    subst run. revert Hcalls.
    destruct showFolderDialog as [path|e]; intros Hcalls.
    + eexists. split.
      * apply (Hcalls path). reflexivity.
      * intros Hcli. rewrite Hcli. simpl. apply in_or_app. right. left. reflexivity.
    + unfold createFunctionApp, await, settle, resolve.
      rewrite Hpick. reflexivity.
  - right. split; [reflexivity|]. split; [exists fs; split; assumption|].
    eexists. split.
    + subst run.
      apply (createFunctionApp_all_calls ed
               {| qp_label := f; qp_description := None; qp_data := None |} f Hpick).
      reflexivity.
    + intros command arg Hin. simpl in Hin.
      destruct ((func_init f (files ed)).1.1); [|destruct Hin].
      rewrite app_nil_r in Hin.
      destruct (scaffold_absent f (files ed)); simpl in Hin;
        repeat (destruct Hin as [Hin | Hin]; [discriminate Hin|]); destruct Hin.
Qed.

(** X8. [createFunctionApp] and [getMissingFunctionAppFiles] agree on
    the path of [launch.json]: after a complete [createFunctionApp] on a
    folder that held neither scaffold file, [launch.json] is not
    reported missing.  But when [tasks.json] existed, [launch.json] did
    not, and the command-line tool creates none, [launch.json] is still
    reported missing afterwards. *)
Theorem launch_json_after_createFunctionApp (ed : Editor) (path : string) :
  answered_path workspaceFolders showQuickPick showFolderDialog = Fulfilled path ->
  (func_init path (files ed)).1.1 = Fulfilled tt ->
  let ed' := (createFunctionApp workspaceFolders showQuickPick showFolderDialog
                func_init executeCommand ed).2 in
  let launch := path_join ".vscode" ["launch.json"] in
  (files ed !! path_join path [".vscode"; "tasks.json"] = None ->
   files ed !! path_join path [".vscode"; "launch.json"] = None ->
   ~ In launch (getMissingFunctionAppFiles path ed'))
  /\ (is_Some (files ed !! path_join path [".vscode"; "tasks.json"]) ->
      (func_init path (files ed)).1.2 !! path_join path [".vscode"; "launch.json"] = None ->
      In launch (getMissingFunctionAppFiles path ed')).
Proof.
  intros Hpath Hcli ed' launch.
  destruct (createFunctionApp_files Err workspaceFolders showQuickPick showFolderDialog
              func_init executeCommand ed path Hpath) as [_ Hf].
  fold ed' in Hf. rewrite Hcli in Hf.
  split.
  - intros Ht Hl.
    assert (scaffold_absent path (files ed) = true) as Habsent
      by (apply scaffold_absent_true; split; assumption).
    rewrite Habsent in Hf.
    intros Hin. apply in_getMissingFunctionAppFiles in Hin as [_ Hnone].
    subst launch. rewrite expected_launch_path, Hf, lookup_insert_eq in Hnone.
    discriminate.
  - intros Ht Hl.
    assert (scaffold_absent path (files ed) = false) as Habsent
      by (apply scaffold_absent_false; left; exact Ht).
    rewrite Habsent in Hf.
    apply in_getMissingFunctionAppFiles. split.
    + subst launch. unfold _expectedFunctionAppFiles. simpl. auto.
    + subst launch. rewrite expected_launch_path, Hf. exact Hl.
Qed.

End MoreCommandProperties.

(** ** [createFunction] *)

Lemma created_app (a b : list Step) : created (a ++ b) = (created a ++ created b)%list.
Proof.
  induction a as [|st a IH]; [reflexivity|].
  destruct st; simpl; rewrite IH; reflexivity.
Qed.

Lemma filter_warning_app (a b : list Step) :
  List.filter is_warning (a ++ b)
  = (List.filter is_warning a ++ List.filter is_warning b)%list.
Proof. apply List.filter_app. Qed.

Section CreateFunctionProperties.

Variable Err : Type.
Variable workspaceFolders : option (list string).
Variable showQuickPick :
  list QuickPickItemWithData -> string -> Completion Err QuickPickItemWithData.
Variable showWarningMessage : string -> list string -> Completion Err (option string).
Variable showInputBox :
  string -> string -> bool -> (string -> option string) -> Completion Err string.
Variable func_init :
  string -> gmap string string -> Completion Err unit * gmap string string * list string.
Variable func_new :
  string -> string -> string -> gmap string string
  -> Completion Err unit * gmap string string * list string.
Variable openTextDocument : string -> Completion Err unit.

#[local] Arguments path_join : simpl never.

Let run_createFunction : Async Session (CommandError Err) unit :=
  createFunction workspaceFolders showQuickPick showWarningMessage showInputBox
    func_init func_new openTextDocument.

(** The first stage: its result is the answered folder; it shows at most
    the quick pick of the folders and leaves the editor alone. *)
Lemma pick_functionAppPath_run (s : Session) :
  let r := pick_functionAppPath workspaceFolders showQuickPick s in
  r.1 = answered_folder workspaceFolders showQuickPick
  /\ editor r.2 = editor s
  /\ created (steps r.2) = created (steps s)
  /\ List.filter is_warning (steps r.2) = List.filter is_warning (steps s)
  /\ (forall e, r.1 = Rejected e ->
        (e = NoWorkspaceError -> r.2 = s)).
Proof.
  unfold pick_functionAppPath, answered_folder.
  destruct workspaceFolders as [[|f [|g fs]]|]; simpl;
    try (repeat split; intros; reflexivity).
  unfold await, log_step, effect, collaborator, resolve. simpl.
  destruct (showQuickPick _ _) as [folder|e]; simpl;
    rewrite created_app, filter_warning_app, !app_nil_r; repeat split;
    intros e0 H He0; subst e0; discriminate.
Qed.

(** The editor after the second stage for a path. *)
Lemma add_missing_files_run (path : string) (s : Session) :
  let r := add_missing_files showWarningMessage func_init path s in
  let missing := getMissingFunctionAppFiles path (editor s) in
  created (steps r.2) = created (steps s)
  /\ (missing = [] -> r = (Fulfilled tt, s))
  /\ (missing <> [] ->
      steps r.2 = (steps s ++ [ShowWarningMessage (missing_files_message missing) [_yes; _no]])%list
      /\ match showWarningMessage (missing_files_message missing) [_yes; _no] with
         | Rejected e => r.1 = Rejected (Collaborator e) /\ editor r.2 = editor s
         | Fulfilled answer =>
             if bool_decide (answer = Some _yes)
             then editor r.2 = (functionsCli_createFunctionApp Err func_init path (editor s)).2
                  /\ r.1 = match (func_init path (files (editor s))).1.1 with
                           | Fulfilled _ => Fulfilled tt
                           | Rejected e => Rejected (Collaborator e)
                           end
             else r.1 = Rejected UserCancelledError /\ editor r.2 = editor s
         end).
Proof.
  unfold add_missing_files, await. simpl.
  destruct (getMissingFunctionAppFiles path (editor s)) as [|file rest] eqn:Hmissing.
  - simpl. split; [reflexivity|]. split; [reflexivity|]. intros Hne. contradiction.
  - cbn [length Nat.eqb negb].
    unfold log_step, effect, collaborator, in_editor, throw. simpl.
    destruct (showWarningMessage _ _) as [answer|e]; simpl.
    + destruct answer as [answer|]; simpl.
      * destruct (String.eqb_spec answer _yes) as [-> | Hne].
        -- rewrite bool_decide_true by reflexivity.
           unfold functionsCli_createFunctionApp. simpl.
           destruct (func_init path (files (editor s))) as [[[[]|e] files'] lines];
             simpl; rewrite created_app, app_nil_r;
             (split; [reflexivity|]); (split; [discriminate|]); intros _;
             repeat split.
        -- rewrite bool_decide_false by congruence.
           simpl. rewrite created_app, app_nil_r.
           (split; [reflexivity|]); (split; [discriminate|]); intros _; repeat split.
      * try rewrite bool_decide_false by discriminate.
        simpl. rewrite created_app, app_nil_r.
        (split; [reflexivity|]); (split; [discriminate|]); intros _; repeat split.
    + rewrite created_app, app_nil_r.
      (split; [reflexivity|]); (split; [discriminate|]); intros _; repeat split.
Qed.

(** The third stage: it never touches the calls of the editor nor shows
    a warning; it creates one function once the template and the name
    are given, and opens its file once the command-line tool
    succeeded. *)
Lemma add_function_run (path : string) (s : Session) :
  let r := add_function showQuickPick showInputBox func_new openTextDocument path s in
  let validate := fun name => validateTemplateName path name (editor s) in
  calls (editor r.2) = calls (editor s)
  /\ List.filter is_warning (steps r.2) = List.filter is_warning (steps s)
  /\ match showQuickPick templates "Select a function template",
           showInputBox "Function Name" "Provide a function name" false validate with
     | Fulfilled template, Fulfilled name =>
         created (steps r.2)
         = (created (steps s) ++ [(path, qp_label template, name)])%list
         /\ files (editor r.2)
            = (func_new path (qp_label template) name (files (editor s))).1.2
         /\ match (func_new path (qp_label template) name (files (editor s))).1.1 with
            | Fulfilled _ =>
                In (OpenTextDocument (path_join path [name; "index.js"])) (steps r.2)
                /\ r.1 = match openTextDocument (path_join path [name; "index.js"]) with
                         | Fulfilled _ => Fulfilled tt
                         | Rejected e => Rejected (Collaborator e)
                         end
            | Rejected e => r.1 = Rejected (Collaborator e)
            end
     | Rejected e, _ =>
         r.1 = Rejected (Collaborator e)
         /\ created (steps r.2) = created (steps s) /\ editor r.2 = editor s
     | Fulfilled _, Rejected e =>
         r.1 = Rejected (Collaborator e)
         /\ created (steps r.2) = created (steps s) /\ editor r.2 = editor s
     end.
Proof.
  unfold add_function, functionsCli_createFunction, await, log_step, effect,
    collaborator, in_editor. simpl.
  destruct (showQuickPick templates "Select a function template") as [template|e]; simpl.
  - destruct (showInputBox _ _ _ _) as [name|e]; simpl.
    + destruct (func_new path (qp_label template) name (files (editor s)))
        as [[[[]|e] files'] lines]; simpl.
      * destruct (openTextDocument _) as [[]|e]; simpl;
          rewrite !filter_warning_app, !created_app, ?app_nil_r; simpl;
          rewrite ?app_nil_r; repeat split;
          rewrite ?in_app_iff; simpl; auto 10.
      * rewrite !filter_warning_app, !created_app, ?app_nil_r; simpl;
          rewrite ?app_nil_r; repeat split.
    + rewrite !filter_warning_app, !created_app, ?app_nil_r; simpl;
        rewrite ?app_nil_r; repeat split.
  - rewrite !filter_warning_app, !created_app, ?app_nil_r; simpl;
      rewrite ?app_nil_r; repeat split.
Qed.

(** [createFunction] as the sequence of its three stages. *)
Lemma createFunction_stages (s : Session) :
  run_createFunction s
  = match pick_functionAppPath workspaceFolders showQuickPick s with
    | (Fulfilled path, s1) =>
        match add_missing_files showWarningMessage func_init path s1 with
        | (Fulfilled _, s2) =>
            add_function showQuickPick showInputBox func_new openTextDocument path s2
        | (Rejected e, s2) => (Rejected e, s2)
        end
    | (Rejected e, s1) => (Rejected e, s1)
    end.
Proof. reflexivity. Qed.

(** X10. When files of the function app are missing and the user
    answers the warning with anything but Yes (No, or dismissing it),
    [createFunction] is rejected with [UserCancelledError]: the editor is
    untouched (the command-line tool is not called) and no function is
    created. *)
Theorem createFunction_declined (s : Session) (path : string) (answer : option string) :
  answered_folder workspaceFolders showQuickPick = Fulfilled path ->
  getMissingFunctionAppFiles path (editor s) <> [] ->
  showWarningMessage
    (missing_files_message (getMissingFunctionAppFiles path (editor s))) [_yes; _no]
  = Fulfilled answer ->
  answer <> Some _yes ->
  (run_createFunction s).1 = Rejected UserCancelledError
  /\ editor (run_createFunction s).2 = editor s
  /\ created (steps (run_createFunction s).2) = created (steps s)
  /\ exists before,
       steps (run_createFunction s).2
       = (before ++ [ShowWarningMessage
                       (missing_files_message (getMissingFunctionAppFiles path (editor s)))
                       [_yes; _no]])%list.
Proof.
  intros Hfolder Hmissing Hanswer Hno.
  rewrite createFunction_stages.
  destruct (pick_functionAppPath_run s) as (Hp1 & Hp2 & Hp3 & _).
  destruct (pick_functionAppPath workspaceFolders showQuickPick s) as [c s1].
  simpl in Hp1, Hp2, Hp3. rewrite Hfolder in Hp1. subst c.
  destruct (add_missing_files_run path s1) as (Hm1 & _ & Hm3).
  rewrite Hp2 in Hm3. specialize (Hm3 Hmissing). destruct Hm3 as [Hsteps Hm3].
  rewrite Hanswer in Hm3. rewrite bool_decide_false in Hm3 by exact Hno.
  destruct Hm3 as [Hres Hed].
  destruct (add_missing_files showWarningMessage func_init path s1) as [c2 s2].
  simpl in *. subst c2. simpl.
  split; [reflexivity|]. split; [congruence|]. split; [congruence|].
  exists (steps s1). exact Hsteps.
Qed.

(** The editor after the second stage: the command-line tool for a
    function app has run exactly when the user was asked and answered
    Yes. *)
Lemma add_missing_files_editor (path : string) (s : Session) :
  let r := add_missing_files showWarningMessage func_init path s in
  let adds := adds_missing_files showWarningMessage path (editor s) in
  calls (editor r.2)
  = (calls (editor s) ++ if adds then [CliCreateFunctionApp path] else [])%list
  /\ files (editor r.2)
     = (if adds then (func_init path (files (editor s))).1.2 else files (editor s))
  /\ List.filter is_warning (steps r.2)
     = (List.filter is_warning (steps s)
        ++ match getMissingFunctionAppFiles path (editor s) with
           | [] => []
           | missing => [ShowWarningMessage (missing_files_message missing) [_yes; _no]]
           end)%list.
Proof.
  destruct (add_missing_files_run path s) as (_ & Hnone & Hsome).
  unfold adds_missing_files.
  destruct (getMissingFunctionAppFiles path (editor s)) as [|file rest] eqn:Hmissing.
  - rewrite (Hnone eq_refl). simpl. rewrite !app_nil_r. repeat split.
  - destruct Hsome as [Hsteps Hcase]; [discriminate|].
    cbv zeta. rewrite Hsteps, filter_warning_app. cbn [List.filter is_warning].
    destruct (showWarningMessage _ _) as [answer|e].
    + destruct (bool_decide (answer = Some _yes)).
      * destruct Hcase as [Hed _]. rewrite Hed.
        unfold functionsCli_createFunctionApp.
        destruct (func_init path (files (editor s))) as [[c files'] lines].
        repeat split.
      * destruct Hcase as [_ Hed]. rewrite Hed, app_nil_r. repeat split.
    + destruct Hcase as [_ Hed]. rewrite Hed, app_nil_r. repeat split.
Qed.

(** X11. Once the folder is known, [createFunction] calls the
    command-line tool for a function app exactly when some expected file
    is missing and the user answers the warning with Yes, and then once;
    it shows the warning exactly when some file is missing, and never
    when the folder is complete. *)
Theorem createFunction_adds_files_on_yes (s : Session) (path : string) :
  answered_folder workspaceFolders showQuickPick = Fulfilled path ->
  calls (editor (run_createFunction s).2)
  = (calls (editor s)
     ++ if adds_missing_files showWarningMessage path (editor s)
        then [CliCreateFunctionApp path] else [])%list
  /\ List.filter is_warning (steps (run_createFunction s).2)
     = (List.filter is_warning (steps s)
        ++ match getMissingFunctionAppFiles path (editor s) with
           | [] => []
           | missing => [ShowWarningMessage (missing_files_message missing) [_yes; _no]]
           end)%list.
Proof.
  intros Hfolder.
  rewrite createFunction_stages.
  destruct (pick_functionAppPath_run s) as (Hp1 & Hp2 & _ & Hp4 & _).
  destruct (pick_functionAppPath workspaceFolders showQuickPick s) as [c s1].
  simpl in Hp1, Hp2, Hp4. rewrite Hfolder in Hp1. subst c.
  destruct (add_missing_files_editor path s1) as (Hcalls & _ & Hwarn).
  rewrite Hp2, Hp4 in *.
  destruct (add_missing_files showWarningMessage func_init path s1) as [[[]|e] s2];
    simpl in Hcalls, Hwarn.
  - destruct (add_function_run path s2) as (Hc & Hw & _).
    rewrite Hc, Hw, Hcalls, Hwarn. split; reflexivity.
  - simpl. rewrite Hcalls, Hwarn. split; reflexivity.
Qed.

(** X12. In a folder where no file is missing, once the user chose a
    template and entered a name, [createFunction] asks the command-line
    tool for exactly one function, with the folder, the label of the
    template and the name; when the tool succeeds it opens [index.js] in
    the folder of that name, and the command ends as the opening of the
    document does. *)
Theorem createFunction_creates (s : Session) (path : string)
    (template : QuickPickItemWithData) (name : string) :
  answered_folder workspaceFolders showQuickPick = Fulfilled path ->
  getMissingFunctionAppFiles path (editor s) = [] ->
  showQuickPick templates "Select a function template" = Fulfilled template ->
  showInputBox "Function Name" "Provide a function name" false
    (fun name => validateTemplateName path name (editor s)) = Fulfilled name ->
  (func_new path (qp_label template) name (files (editor s))).1.1 = Fulfilled tt ->
  created (steps (run_createFunction s).2)
  = (created (steps s) ++ [(path, qp_label template, name)])%list
  /\ files (editor (run_createFunction s).2)
     = (func_new path (qp_label template) name (files (editor s))).1.2
  /\ In (OpenTextDocument (path_join path [name; "index.js"]))
        (steps (run_createFunction s).2)
  /\ (run_createFunction s).1
     = match openTextDocument (path_join path [name; "index.js"]) with
       | Fulfilled _ => Fulfilled tt
       | Rejected e => Rejected (Collaborator e)
       end.
Proof.
  intros Hfolder Hmissing Htemplate Hname Hnew.
  rewrite createFunction_stages.
  destruct (pick_functionAppPath_run s) as (Hp1 & Hp2 & Hp3 & _).
  destruct (pick_functionAppPath workspaceFolders showQuickPick s) as [c s1].
  simpl in Hp1, Hp2, Hp3. rewrite Hfolder in Hp1. subst c.
  destruct (add_missing_files_run path s1) as (_ & Hm2 & _).
  rewrite Hp2 in Hm2. rewrite (Hm2 Hmissing).
  destruct (add_function_run path s1) as (_ & _ & Hf).
  rewrite Hp2, Htemplate, Hname, Hnew in Hf.
  destruct Hf as (Hcreated & Hfiles & Hopen & Hres).
  rewrite Hcreated, Hfiles, Hres, Hp3. repeat split. exact Hopen.
Qed.

(** X9. [createFunction] is rejected with [NoWorkspaceError] exactly
    when no workspace folder is open (none, or an empty list), and then
    before anything else happens: no prompt, no call, no change. *)
Theorem createFunction_no_workspace (s : Session) :
  ((run_createFunction s).1 = Rejected NoWorkspaceError
   <-> workspaceFolders = None \/ workspaceFolders = Some [])
  /\ (workspaceFolders = None \/ workspaceFolders = Some [] ->
      run_createFunction s = (Rejected NoWorkspaceError, s)).
Proof.
  assert (workspaceFolders = None \/ workspaceFolders = Some [] ->
          run_createFunction s = (Rejected NoWorkspaceError, s)) as Hnone.
  { intros [H | H]; rewrite createFunction_stages; unfold pick_functionAppPath;
      rewrite H; reflexivity. }
  split; [|exact Hnone]. split; [|intros H; rewrite (Hnone H); reflexivity].
  rewrite createFunction_stages.
  destruct (pick_functionAppPath_run s) as (Hp1 & _).
  destruct (pick_functionAppPath workspaceFolders showQuickPick s) as [c s1].
  simpl in Hp1. unfold answered_folder in Hp1.
  destruct workspaceFolders as [[|f [|g fs]]|]; auto; subst c.
  - (* one folder *)
    destruct (add_missing_files_run f s1) as (_ & Hm2 & Hm3).
    destruct (getMissingFunctionAppFiles f (editor s1)) as [|file rest].
    + rewrite (Hm2 eq_refl).
      destruct (add_function_run f s1) as (_ & _ & Hf).
      destruct (showQuickPick templates _); [|destruct Hf as [-> _]; discriminate].
      destruct (showInputBox _ _ _ _); [|destruct Hf as [-> _]; discriminate].
      destruct Hf as (_ & _ & Hf).
      destruct ((func_new _ _ _ _).1.1); [destruct Hf as [_ ->]|rewrite Hf; discriminate].
      destruct (openTextDocument _); discriminate.
    + destruct Hm3 as [_ Hm3]; [discriminate|].
      destruct (add_missing_files showWarningMessage func_init f s1) as [[[]|e] s2];
        simpl in Hm3.
      * destruct (add_function_run f s2) as (_ & _ & Hf).
        destruct (showQuickPick templates _); [|destruct Hf as [-> _]; discriminate].
        destruct (showInputBox _ _ _ _); [|destruct Hf as [-> _]; discriminate].
        destruct Hf as (_ & _ & Hf).
        destruct ((func_new _ _ _ _).1.1); [destruct Hf as [_ ->]|rewrite Hf; discriminate].
        destruct (openTextDocument _); discriminate.
      * simpl. destruct (showWarningMessage _ _) as [answer|e'].
        -- destruct (bool_decide (answer = Some _yes)); destruct Hm3 as [H1 H2].
           ++ destruct ((func_init _ _).1.1); congruence.
           ++ congruence.
        -- destruct Hm3 as [H1 _]. congruence.
  - (* several folders *)
    destruct (showQuickPick _ "Select a workspace folder for your new function")
      as [folder|e]; [|discriminate].
    destruct (add_missing_files_run (qp_label folder) s1) as (_ & Hm2 & Hm3).
    destruct (getMissingFunctionAppFiles (qp_label folder) (editor s1)) as [|file rest].
    + rewrite (Hm2 eq_refl).
      destruct (add_function_run (qp_label folder) s1) as (_ & _ & Hf).
      destruct (showQuickPick templates _); [|destruct Hf as [-> _]; discriminate].
      destruct (showInputBox _ _ _ _); [|destruct Hf as [-> _]; discriminate].
      destruct Hf as (_ & _ & Hf).
      destruct ((func_new _ _ _ _).1.1); [destruct Hf as [_ ->]|rewrite Hf; discriminate].
      destruct (openTextDocument _); discriminate.
    + destruct Hm3 as [_ Hm3]; [discriminate|].
      destruct (add_missing_files showWarningMessage func_init (qp_label folder) s1)
        as [[[]|e] s2]; simpl in Hm3.
      * destruct (add_function_run (qp_label folder) s2) as (_ & _ & Hf).
        destruct (showQuickPick templates _); [|destruct Hf as [-> _]; discriminate].
        destruct (showInputBox _ _ _ _); [|destruct Hf as [-> _]; discriminate].
        destruct Hf as (_ & _ & Hf).
        destruct ((func_new _ _ _ _).1.1); [destruct Hf as [_ ->]|rewrite Hf; discriminate].
        destruct (openTextDocument _); discriminate.
      * simpl. destruct (showWarningMessage _ _) as [answer|e'].
        -- destruct (bool_decide (answer = Some _yes)); destruct Hm3 as [H1 H2].
           ++ destruct ((func_init _ _).1.1); congruence.
           ++ congruence.
        -- destruct Hm3 as [H1 _]. congruence.
Qed.

(** X13. Provided the input box only returns a name its validator
    accepts, [createFunction] never asks the command-line tool for a
    function with an empty name; every function it asks for is in the
    answered folder, under the label of the template the user picked. *)
Theorem createFunction_never_unnamed (s : Session) (path : string) :
  answered_folder workspaceFolders showQuickPick = Fulfilled path ->
  (forall validate name,
     showInputBox "Function Name" "Provide a function name" false validate
     = Fulfilled name ->
     validate name = None) ->
  forall p t n,
    In (p, t, n) (created (steps (run_createFunction s).2)) ->
    In (p, t, n) (created (steps s))
    \/ (p = path /\ n <> EmptyString
        /\ exists template,
             showQuickPick templates "Select a function template" = Fulfilled template
             /\ t = qp_label template).
Proof.
  intros Hfolder Hbox p t n.
  rewrite createFunction_stages.
  destruct (pick_functionAppPath_run s) as (Hp1 & Hp2 & Hp3 & _).
  destruct (pick_functionAppPath workspaceFolders showQuickPick s) as [c s1].
  simpl in Hp1, Hp2, Hp3. rewrite Hfolder in Hp1. subst c.
  destruct (add_missing_files_run path s1) as (Hm1 & _).
  destruct (add_missing_files showWarningMessage func_init path s1) as [[[]|e] s2];
    simpl in Hm1.
  - destruct (add_function_run path s2) as (_ & _ & Hf).
    destruct (showQuickPick templates "Select a function template") as [template|e].
    + destruct (showInputBox "Function Name" "Provide a function name" false
                  (fun name => validateTemplateName path name (editor s2)))
        as [name|e] eqn:Hname.
      * destruct Hf as (Hcreated & _). rewrite Hcreated, Hm1, Hp3.
        intros Hin. apply in_app_or in Hin as [Hin | [Hin | []]]; [left; exact Hin|].
        injection Hin as <- <- <-. right.
        apply Hbox in Hname. apply validateTemplateName_empty in Hname.
        split; [reflexivity|]. split; [exact Hname|].
        exists template. split; reflexivity.
      * destruct Hf as (_ & Hcreated & _). rewrite Hcreated, Hm1, Hp3. auto.
    + destruct Hf as (_ & Hcreated & _). rewrite Hcreated, Hm1, Hp3. auto.
  - simpl. rewrite Hm1, Hp3. auto.
Qed.

End CreateFunctionProperties.


(** * Further properties of the deployment test *)

Lemma includes_app_l (s a b : string) :
  includes s (a ++ b) = true -> includes s a = true.
Proof.
  rewrite !includes_iff. intros (before & after & H).
  exists before, (b ++ after). rewrite H, string_app_assoc. reflexivity.
Qed.

Section MoreDeployProperties.

Variable Err : Type.
Variable parseError_message : Err -> string.
Variable ui : nat -> list Input -> CommandOutcome Err.
Variable http : Request -> Completion Err string.
Variable N : nat.
Variables appName functionName : string.
Variable projectLanguage : ProjectLanguage.

Let inputs : list Input := copy_inputs appName functionName projectLanguage.
Let check : Async World (Failure Err) unit :=
  validateFunctionUrl_with parseError_message ui http N
    appName functionName projectLanguage.

(** X14. Every scripted command the check runs is
    [azureFunctions.copyFunctionUrl] with the same inputs in every
    attempt: the app name and then the function name, preceded by the
    pattern that skips the local project unless the language is
    CSharp. *)
Theorem check_runs_one_command (w : World) (e : Event) :
  In e (trace (check w).2) ->
  is_run e = true ->
  (In e (trace w) \/ e = RunWithInputs inputs "azureFunctions.copyFunctionUrl")
  /\ exists pattern,
       inputs = (pattern ++ [Text appName; Text functionName])%list
       /\ (pattern = [] <-> projectLanguage = CSharp)
       /\ (pattern <> [] -> pattern = [RegExp "^((?!Local Project).)*$" "i"]).
Proof.
  intros Hin Hrun. split.
  - destruct (ends_on_exists Err parseError_message ui N appName functionName
                projectLanguage N w) as [m Hm].
    destruct (validateFunctionUrl_ends_on Err parseError_message ui http N appName
                functionName projectLanguage w m Hm) as [_ Hcheck].
    subst check. cbv beta in Hin. rewrite Hcheck in Hin. clear Hcheck.
    assert (In e (trace w ++ loop_events N inputs 1 m) ->
            In e (trace w) \/ e = RunWithInputs inputs "azureFunctions.copyFunctionUrl")
      as Hloop.
    { intros H. apply in_app_or in H as [H | H]; [left; exact H|].
      right. apply in_loop_events in H as (j & _ & H).
      unfold attempt_events in H. destruct (Nat.eqb j 1); simpl in H;
        repeat (destruct H as [H | H]; [subst e; try discriminate Hrun; try reflexivity|]);
        destruct H. }
    destruct (loop_result _ _ _) as [[]|f].
    + unfold check_world in Hin. cbn [snd trace] in Hin.
      apply in_app_or in Hin as [Hin | Hin]; [apply Hloop; exact Hin|].
      simpl in Hin. destruct Hin as [<- | [<- | []]]; discriminate.
    + apply Hloop. exact Hin.
  - subst inputs. unfold copy_inputs.
    destruct projectLanguage; simpl;
      try (exists [RegExp "^((?!Local Project).)*$" "i"];
           split; [reflexivity|]; split; [split; discriminate | reflexivity]).
    exists []. split; [reflexivity|]. split; [split; reflexivity | intros H; contradiction].
Qed.

(** X15. What the clipboard holds before the check starts has no
    influence on it: started with any other content, the check ends with
    the same result, the same events and the same clipboard. *)
Theorem check_ignores_initial_clipboard (w : World) (content : string) :
  check {| clipboard := content; executions := executions w; trace := trace w |}
  = check w.
Proof.
  destruct (ends_on_exists Err parseError_message ui N appName functionName
              projectLanguage N w) as [m Hm].
  assert (ends_on parseError_message ui functionName inputs
            {| clipboard := content; executions := executions w; trace := trace w |} N m)
    as Hm' by exact Hm.
  destruct (validateFunctionUrl_ends_on Err parseError_message ui http N appName
              functionName projectLanguage w m Hm) as [_ Hcheck].
  destruct (validateFunctionUrl_ends_on Err parseError_message ui http N appName
              functionName projectLanguage _ m Hm') as [_ Hcheck'].
  subst check. cbv beta. rewrite Hcheck, Hcheck'. reflexivity.
Qed.

(** X16. When the loop succeeded and the request fails, the check is
    rejected with the very error of the request, after that one request:
    the command is not run again. *)
Theorem check_request_failure (w : World) (error : Err) :
  (retry (attempt parseError_message ui N appName functionName projectLanguage)
     {| retries := N; minTimeout := 5 * 1000 |} w).1 = Fulfilled tt ->
  http (check_request
          (clipboard
             (retry (attempt parseError_message ui N appName functionName projectLanguage)
                {| retries := N; minTimeout := 5 * 1000 |} w).2))
  = Rejected error ->
  (check w).1 = Rejected (Raised error)
  /\ executions (check w).2
     = executions
         (retry (attempt parseError_message ui N appName functionName projectLanguage)
            {| retries := N; minTimeout := 5 * 1000 |} w).2
  /\ count is_request (trace (check w).2) = count is_request (trace w) + 1.
Proof.
  intros Hok Hhttp.
  destruct (ends_on_exists Err parseError_message ui N appName functionName
              projectLanguage N w) as [m Hm].
  destruct (validateFunctionUrl_ends_on Err parseError_message ui http N appName
              functionName projectLanguage w m Hm) as [Hloop Hcheck].
  subst check. cbv beta. rewrite Hloop in Hok, Hhttp. rewrite Hloop.
  cbn [fst snd] in Hok, Hhttp. rewrite Hok in Hcheck. rewrite Hcheck.
  cbn [fst snd]. rewrite Hhttp. unfold check_world. cbn [executions trace check_result].
  split; [reflexivity|]. split; [reflexivity|].
  rewrite !count_app, count_request_loop. unfold count. simpl. lia.
Qed.

(** X17. An error whose message does not contain [func] is never
    retried for a function name that starts with [func], as every name
    the test makes does: the catch clause turns it into an [AbortError]
    with its message. *)
Theorem func_names_need_func (suffix : string) (error : Err) (w : World) :
  includes (parseError_message error) "func" = false ->
  retryable parseError_message ("func" ++ suffix) error = false
  /\ on_error parseError_message ("func" ++ suffix) error w
     = (Rejected (AbortError (parseError_message error)), w).
Proof.
  intros Hno.
  assert (includes (parseError_message error) ("func" ++ suffix) = false) as Hname.
  { destruct (includes (parseError_message error) ("func" ++ suffix)) eqn:H; [|reflexivity].
    apply includes_app_l in H. congruence. }
  unfold on_error, retryable. rewrite Hname, andb_false_r. split; reflexivity.
Qed.

End MoreDeployProperties.

Section TestRunProperties.

Variable Err : Type.
Variable parseError_message : Err -> string.
Variable ui : nat -> list Input -> CommandOutcome Err.
Variable http : Request -> Completion Err string.
Variable Expect : Type.
Variable testWorkspacePath : string.
Variable language_name : ProjectLanguage -> string.
Variable getRandomHexString : nat -> string.
Variable authLevel : Input.
Variable location : Input.
Variable emptyDir : string -> Completion Err unit.
Variable validateProject :
  string -> IValidateProjectOptions Expect -> Completion Err unit.

Variable validateProjectOptions : IValidateProjectOptions Expect.
Variable projectLanguage : ProjectLanguage.
Variable languageSpecificInputs : list Input.

Let test : Async TestRun (Failure Err) unit :=
  testCreateProjectAndDeploy parseError_message ui http
    testWorkspacePath language_name getRandomHexString authLevel location
    emptyDir validateProject validateProjectOptions projectLanguage languageSpecificInputs.

Let created_ok (t : TestRun) : bool :=
  project_created ui testWorkspacePath language_name getRandomHexString authLevel
    emptyDir validateProject validateProjectOptions projectLanguage
    languageSpecificInputs t.

Let functionName (t : TestRun) : string := "func" ++ getRandomHexString (hex_drawn t).
Let appName (t : TestRun) : string :=
  "funcBasic" ++ getRandomHexString (Datatypes.S (hex_drawn t)).

(** The world in which the check of the test starts: after the two
    scripted commands of the test. *)
Let world_after_deploy (t : TestRun) : World :=
  (runWithInputs ui (deploy_inputs location (appName t)) "azureFunctions.deploy"
     (runWithInputs ui
        (project_inputs testWorkspacePath language_name authLevel projectLanguage
           (functionName t) languageSpecificInputs)
        "azureFunctions.createNewProject" (world t)).2).2.

Lemma check_executions_bound (app fn : string) (w : World) :
  executions (validateFunctionUrl parseError_message ui http app fn projectLanguage w).2
  <= executions w + 5.
Proof.
  destruct (ends_on_exists Err parseError_message ui 4 app fn projectLanguage 4 w)
    as [m Hm].
  destruct (validateFunctionUrl_ends_on Err parseError_message ui http 4 app fn
              projectLanguage w m Hm) as [_ Hcheck].
  unfold validateFunctionUrl. rewrite Hcheck.
  destruct Hm as (Hm & _).
  destruct (loop_result _ _ _); simpl; lia.
Qed.

(** X18. The test registers the name of the function app for deletion
    before it deploys: once the folder was emptied and the project
    created and found valid, the name is in the list whatever the
    deployment and the check do afterwards.  When one of those first
    steps fails, the test is rejected, nothing is registered and the
    deployment is not started. *)
Theorem test_registers_cleanup (t : TestRun) :
  (created_ok t = true ->
   resourceGroupsToDelete (test t).2 = (resourceGroupsToDelete t ++ [appName t])%list)
  /\ (created_ok t = false ->
      resourceGroupsToDelete (test t).2 = resourceGroupsToDelete t
      /\ (exists f, (test t).1 = Rejected f)
      /\ executions (world (test t).2) <= executions (world t) + 1).
Proof.
  subst test created_ok appName. cbv beta.
  unfold project_created, testCreateProjectAndDeploy, await, draw_hex, test_call,
    run_command, in_world, resourceGroupsToDelete_push, effect, raised, runWithInputs.
  cbn [fst snd world resourceGroupsToDelete hex_drawn test_steps executions].
  destruct (emptyDir testWorkspacePath) as [[]|e0].
  - destruct (thrown (ui (executions (world t)) _)) as [e1|].
    + split; [discriminate|]. intros _. cbn. repeat split; eauto. lia.
    + destruct (validateProject testWorkspacePath _) as [[]|e2].
      * split; [|discriminate]. intros _.
        cbn [fst snd world resourceGroupsToDelete hex_drawn test_steps executions].
        destruct (thrown (ui _ (deploy_inputs _ _))) as [e3|]; [reflexivity|].
        destruct (validateFunctionUrl _ _ _ _ _ _ _) as [c w3]. reflexivity.
      * split; [discriminate|]. intros _. cbn. repeat split; eauto. lia.
  - split; [discriminate|]. intros _. cbn. repeat split; eauto. lia.
Qed.

(** X19. One run of the test executes at most seven scripted commands:
    the creation of the project, the deployment, and at most five
    attempts to copy the url.  When the project was created and the
    deployment succeeded, the test ends as [validateFunctionUrl] does for
    the app name and the function name the test made, both starting with
    [func]. *)
Theorem test_runs_the_check (t : TestRun) :
  executions (world (test t).2) <= executions (world t) + 7
  /\ (created_ok t = true ->
      thrown (ui (Datatypes.S (executions (world t)))
                (deploy_inputs location (appName t))) = None ->
      (test t).1
      = (validateFunctionUrl parseError_message ui http (appName t) (functionName t)
           projectLanguage (world_after_deploy t)).1
      /\ world (test t).2
         = (validateFunctionUrl parseError_message ui http (appName t) (functionName t)
              projectLanguage (world_after_deploy t)).2
      /\ executions (world_after_deploy t) = executions (world t) + 2).
Proof.
  subst test created_ok appName functionName world_after_deploy. cbv beta.
  unfold project_created, testCreateProjectAndDeploy, await, draw_hex, test_call,
    run_command, in_world, resourceGroupsToDelete_push, effect, raised, runWithInputs.
  cbn [fst snd world resourceGroupsToDelete hex_drawn test_steps executions].
  destruct (emptyDir testWorkspacePath) as [[]|e0].
  - destruct (thrown (ui (executions (world t)) _)) as [e1|].
    + split; [cbn; lia | discriminate].
    + destruct (validateProject testWorkspacePath _) as [[]|e2].
      * cbn [fst snd world resourceGroupsToDelete hex_drawn test_steps executions].
        destruct (thrown (ui _ (deploy_inputs _ _))) as [e3|] eqn:Hdeploy.
        -- split; [cbn; lia|]. intros _ H. discriminate.
        -- match goal with
           | |- context [validateFunctionUrl ?pm ?u ?h ?a ?f ?l ?w] =>
               pose proof (check_executions_bound a f w) as Hbound;
               destruct (validateFunctionUrl pm u h a f l w) as [c w3]
           end.
           cbn [fst snd world executions] in *. split; [lia|].
           intros _ _. repeat split. lia.
      * split; [cbn; lia | discriminate].
  - split; [cbn; lia | discriminate].
Qed.

End TestRunProperties.

(** ** The further theorems at scenarios *)

Lemma createFunctionApp_calls_witness :
  calls (createFunctionApp None pick_new_folder (Fulfilled "/new") init_nothing
           (fun _ _ => Fulfilled tt) empty_editor).2
  = [ CliCreateFunctionApp "/new";
      WriteToFile (path_join "/new" [".vscode"; "tasks.json"])
        (JSON_stringify tasksJson four_spaces);
      WriteToFile (path_join "/new" [".vscode"; "launch.json"])
        (JSON_stringify launchJson four_spaces);
      ExecuteCommand "vscode.openFolder" "/new" ].
Proof.
  destruct (createFunctionApp_calls unit None pick_new_folder (Fulfilled "/new")
              init_nothing (fun _ _ => Fulfilled tt) empty_editor newFolderItem "/new"
              eq_refl eq_refl eq_refl) as [Hcalls _].
  exact Hcalls.
Defined.

Lemma createFunctionApp_path_of_pick_witness :
  exists rest,
    calls (createFunctionApp odd_workspace pick_odd_folder (Fulfilled "/elsewhere")
             init_nothing (fun _ _ => Fulfilled tt) empty_editor).2
    = CliCreateFunctionApp "$(plus) New Folder" :: rest
    /\ forall command arg, ~ In (ExecuteCommand command arg) rest.
Proof.
  destruct (createFunctionApp_path_of_pick unit odd_workspace pick_odd_folder
              (Fulfilled "/elsewhere") init_nothing (fun _ _ => Fulfilled tt)
              empty_editor
              {| qp_label := "$(plus) New Folder"; qp_description := None; qp_data := None |}
              eq_refl)
    as [[Hnew _] | (_ & _ & rest & Hcalls & Hnone)].
  - right. left. reflexivity.
  - discriminate Hnew.
  - exists rest. split; [exact Hcalls | exact Hnone].
Defined.

Lemma launch_json_after_createFunctionApp_witness :
  ~ In (path_join ".vscode" ["launch.json"])
      (getMissingFunctionAppFiles "/new"
         (createFunctionApp None pick_new_folder (Fulfilled "/new") init_nothing
            (fun _ _ => Fulfilled tt) empty_editor).2).
Proof.
  destruct (launch_json_after_createFunctionApp unit None pick_new_folder
              (Fulfilled "/new") init_nothing (fun _ _ => Fulfilled tt)
              empty_editor "/new" eq_refl eq_refl) as [H _].
  apply H; reflexivity.
Defined.

Lemma createFunction_declined_witness :
  (createFunction (Some ["/work"]) pick_http_trigger answer_no enter_hello
     init_nothing new_function open_ok (start_session empty_editor)).1
  = Rejected UserCancelledError.
Proof.
  destruct (createFunction_declined unit (Some ["/work"]) pick_http_trigger answer_no
              enter_hello init_nothing new_function open_ok
              (start_session empty_editor) "/work" (Some _no)) as [H _].
  - reflexivity.
  - discriminate.
  - reflexivity.
  - discriminate.
  - exact H.
Defined.

Lemma createFunction_adds_files_on_yes_witness :
  calls (editor (createFunction (Some ["/work"]) pick_http_trigger answer_no enter_hello
                   init_nothing new_function open_ok (start_session empty_editor)).2)
  = [].
Proof.
  destruct (createFunction_adds_files_on_yes unit (Some ["/work"]) pick_http_trigger
              answer_no enter_hello init_nothing new_function open_ok
              (start_session empty_editor) "/work" eq_refl) as [H _].
  exact H.
Defined.

Lemma createFunction_creates_witness :
  created (steps (createFunction (Some ["/work"]) pick_http_trigger answer_no enter_hello
                    init_nothing new_function open_ok (start_session complete_editor)).2)
  = [("/work", "HttpTrigger", "hello")].
Proof.
  destruct (createFunction_creates unit (Some ["/work"]) pick_http_trigger answer_no
              enter_hello init_nothing new_function open_ok
              (start_session complete_editor) "/work"
              {| qp_label := "HttpTrigger"; qp_description := None; qp_data := None |}
              "hello") as [H _].
  - reflexivity.
  - vm_compute. reflexivity.
  - reflexivity.
  - vm_compute. reflexivity.
  - reflexivity.
  - exact H.
Defined.

Lemma createFunction_never_unnamed_witness :
  "hello" <> EmptyString
  /\ exists template,
       pick_http_trigger templates "Select a function template" = Fulfilled template
       /\ "HttpTrigger" = qp_label template.
Proof.
  destruct (createFunction_never_unnamed unit (Some ["/work"]) pick_http_trigger
              answer_no enter_hello init_nothing new_function open_ok
              (start_session complete_editor) "/work") with
    (p := "/work") (t := "HttpTrigger") (n := "hello") as [H | (_ & Hname & Htemplate)].
  - reflexivity.
  - intros validate name H. unfold enter_hello in H.
    destruct (validate "hello") eqn:Hv; [discriminate|].
    injection H as <-. exact Hv.
  - vm_compute. left. reflexivity.
  - destruct H.
  - split; [exact Hname | exact Htemplate].
Defined.

Lemma check_runs_one_command_witness :
  RunWithInputs (copy_inputs "appX" "funcAB12" CSharp) "azureFunctions.copyFunctionUrl"
  = RunWithInputs [Text "appX"; Text "funcAB12"] "azureFunctions.copyFunctionUrl".
Proof.
  destruct (check_runs_one_command string message_of network_timeout greeting 4
              "appX" "funcAB12" CSharp fresh_world
              (RunWithInputs [Text "appX"; Text "funcAB12"] "azureFunctions.copyFunctionUrl"))
    as [[H | H] _].
  - vm_compute. right. right. left. reflexivity.
  - reflexivity.
  - destruct H.
  - symmetry. exact H.
Defined.

Lemma check_request_failure_witness :
  (validateFunctionUrl_with message_of race_then_url unavailable 4
     "appX" "funcAB12" JavaScript fresh_world).1 = Rejected (Raised "503").
Proof.
  destruct (check_request_failure string message_of race_then_url unavailable 4
              "appX" "funcAB12" JavaScript fresh_world "503") as [H _].
  - reflexivity.
  - reflexivity.
  - exact H.
Defined.

Lemma func_names_need_func_witness :
  retryable message_of ("func" ++ "AB12") "network timeout" = false.
Proof.
  destruct (func_names_need_func string message_of "AB12" "network timeout" fresh_world)
    as [H _].
  - reflexivity.
  - exact H.
Defined.
